(** * Model of the ai-microservice provider adapters

    Shallow embedding of [app/gemini_service.py], [app/groq_service.py],
    [app/grok_service.py], [app/provider_selector.py] and [main.py].

    - Python [str] values are ASCII [string]s; the string methods used by
      the code ([lower], [upper], [strip], [in], [startswith], [split],
      [replace]) are written out below on ASCII characters.
    - JSON documents are [JValue]; the Python library functions that the
      code calls ([json.loads], pydantic's coercion of JSON values to
      [float] and [date], and the external [fetch_stock_news] lookup) are
      passed around in a record [Lib], so every theorem holds for any
      behaviour of those libraries.
    - Each upstream model call is answered by an oracle [nat -> Result R]
      (the answer to the n-th call, or the exception the SDK raises).
      The adapters run in an exception + state monad [M] whose state
      counts the calls made and keeps a log of calls and sleeps. *)

From Stdlib Require Import String Ascii List Bool Arith Lia QArith.
Set Warnings "-register-all".
Open Scope nat_scope.
Import ListNotations.
Open Scope string_scope.

(* ------------------------------------------------------------------ *)
(** ** Python string methods on ASCII strings *)

Module PyStr.

(** [str.isspace] on ASCII, the characters [str.strip] removes: space,
    [\t \n \v \f \r] (9-13) and the separators [\x1c]-[\x1f]. *)
Definition is_space (c : ascii) : bool :=
  let n := nat_of_ascii c in
  Nat.eqb n 32 || (Nat.leb 9 n && Nat.leb n 13) || (Nat.leb 28 n && Nat.leb n 31).

Definition lower_char (c : ascii) : ascii :=
  let n := nat_of_ascii c in
  if Nat.leb 65 n && Nat.leb n 90 then ascii_of_nat (n + 32) else c.

Definition upper_char (c : ascii) : ascii :=
  let n := nat_of_ascii c in
  if Nat.leb 97 n && Nat.leb n 122 then ascii_of_nat (n - 32) else c.

Fixpoint map_chars (f : ascii -> ascii) (s : string) : string :=
  match s with
  | EmptyString => EmptyString
  | String c s' => String (f c) (map_chars f s')
  end.

(** [s.lower()] and [s.upper()] *)
Definition lower (s : string) : string := map_chars lower_char s.
Definition upper (s : string) : string := map_chars upper_char s.

Fixpoint lstrip (s : string) : string :=
  match s with
  | EmptyString => EmptyString
  | String c s' => if is_space c then lstrip s' else s
  end.

Fixpoint rev_str (s : string) (acc : string) : string :=
  match s with
  | EmptyString => acc
  | String c s' => rev_str s' (String c acc)
  end.

(** [s.strip()] *)
Definition strip (s : string) : string :=
  rev_str (lstrip (rev_str (lstrip s) EmptyString)) EmptyString.

(** [s.startswith(p)] *)
Definition startswith (s p : string) : bool := String.prefix p s.

(** [p in s] *)
Fixpoint contains (p s : string) : bool :=
  String.prefix p s ||
  match s with
  | EmptyString => false
  | String _ s' => contains p s'
  end.

(** [s.split(sep)] for a non-empty [sep]; [fuel] bounds the scan. *)
Fixpoint split_fuel (fuel : nat) (sep s acc : string) : list string :=
  match fuel with
  | O => [acc ++ s]
  | S fuel' =>
      match s with
      | EmptyString => [acc]
      | String c s' =>
          if String.prefix sep s
          then acc :: split_fuel fuel' sep
                        (substring (String.length sep)
                           (String.length s - String.length sep) s) ""
          else split_fuel fuel' sep s' (acc ++ String c EmptyString)
      end
  end.

Definition split (s sep : string) : list string :=
  split_fuel (S (String.length s)) sep s "".

(** [s.replace(old, new)] for a non-empty [old]. *)
Fixpoint replace_fuel (fuel : nat) (old new s : string) : string :=
  match fuel with
  | O => s
  | S fuel' =>
      match s with
      | EmptyString => EmptyString
      | String c s' =>
          if String.prefix old s
          then new ++ replace_fuel fuel' old new
                        (substring (String.length old)
                           (String.length s - String.length old) s)
          else String c (replace_fuel fuel' old new s')
      end
  end.

Definition replace (s old new : string) : string :=
  replace_fuel (S (String.length s)) old new s.

(** Truthiness of a [str] *)
Definition truthy (s : string) : bool :=
  match s with EmptyString => false | _ => true end.

End PyStr.

(* ------------------------------------------------------------------ *)
(** ** JSON values, as [json.loads] returns them *)

Inductive JValue : Type :=
| JNull
| JBool (b : bool)
| JNum (q : Q)
| JStr (s : string)
| JArr (xs : list JValue)
| JObj (kv : list (string * JValue)).

(** [d.get(k)] on a decoded object: the last binding of a key wins, as in
    [json.loads]. *)
Definition obj_get (kv : list (string * JValue)) (k : string)
  : option JValue :=
  fold_left (fun acc '(k', v) => if String.eqb k k' then Some v else acc)
    kv None.

(** Python truthiness of a decoded value *)
Definition jtruthy (v : JValue) : bool :=
  match v with
  | JNull => false
  | JBool b => b
  | JNum q => negb (Qeq_bool q 0)
  | JStr s => PyStr.truthy s
  | JArr xs => match xs with [] => false | _ => true end
  | JObj kv => match kv with [] => false | _ => true end
  end.

(* ------------------------------------------------------------------ *)
(** ** Exceptions, results and the adapter monad *)

Inductive Exn : Type :=
| APIError (text : string)      (* google.genai.errors.APIError; [text] is str(e) *)
| ValueError (text : string)
| ValidationError               (* pydantic *)
| JSONDecodeError
| TypeError
| AttributeError
| IndexError
| KeyError
| ImportError (name : string)
| SDKError (text : string).     (* any other exception an SDK raises *)

Inductive Result (A : Type) : Type :=
| Ret (a : A)
| Throw (e : Exn).
Arguments Ret {A} a.
Arguments Throw {A} e.

Inductive CallKind : Type :=
| KClassify | KExtract | KChat | KChatFinal | KAnalyze | KTitle.

Record Message := { role : string; content : string }.

(** A trade as the callers send it: [Dict[str, Any]]. *)
Definition TradeDict := list (string * JValue).

(** What a call puts into its prompt from the caller's data. *)
Inductive Payload : Type :=
| PText (s : string)
| PTrades (ts : list TradeDict)
| PMessages (ms : list Message)
| PToolResults (rs : list string).

Inductive Event : Type :=
| ECall (k : CallKind) (p : Payload)
| ESleep (secs : nat)
| ELookup (query : JValue).

Record St := { calls : nat; log : list Event }.

Definition st0 : St := {| calls := 0; log := [] |}.

Definition M (A : Type) : Type := St -> Result A * St.

Definition ret {A} (a : A) : M A := fun s => (Ret a, s).
Definition raise {A} (e : Exn) : M A := fun s => (Throw e, s).
Definition bind {A B} (m : M A) (f : A -> M B) : M B :=
  fun s => match m s with
           | (Ret a, s') => f a s'
           | (Throw e, s') => (Throw e, s')
           end.
(** [try: m except e: h e] *)
Definition try_except {A} (m : M A) (h : Exn -> M A) : M A :=
  fun s => match m s with
           | (Ret a, s') => (Ret a, s')
           | (Throw e, s') => h e s'
           end.
Definition lift {A} (r : Result A) : M A :=
  match r with Ret a => ret a | Throw e => raise e end.
Definition emit (ev : Event) : M unit :=
  fun s => (Ret tt, {| calls := calls s; log := log s ++ [ev] |}).

Notation "x <- c ;; k" := (bind c (fun x => k))
  (at level 61, c at next level, right associativity).
Notation "c ;;; k" := (bind c (fun _ => k))
  (at level 61, right associativity).

(** [await asyncio.sleep(secs)] *)
Definition sleep (secs : nat) : M unit := emit (ESleep secs).

(** One upstream model call, answered by the oracle. *)
Definition backend {R} (oracle : nat -> Result R) (k : CallKind)
  (p : Payload) : M R :=
  fun s =>
    let s' := {| calls := S (calls s); log := log s ++ [ECall k p] |} in
    match oracle (calls s) with
    | Ret r => (Ret r, s')
    | Throw e => (Throw e, s')
    end.

Definition run {A} (m : M A) : Result A * St := m st0.

(** Outcome of one iteration of [for attempt in range(N)]: [return v] or
    fall through to the next iteration. *)
Inductive Step (A : Type) : Type := Done (a : A) | Next.
Arguments Done {A} a.
Arguments Next {A}.

(** [for attempt in range(start, start + n): body; after the loop: after] *)
Fixpoint for_range {A} (n start : nat) (body : nat -> M (Step A))
  (after : M A) : M A :=
  match n with
  | O => after
  | S n' =>
      st <- body start ;;
      match st with
      | Done a => ret a
      | Next => for_range n' (S start) body after
      end
  end.

(** Library behaviour the adapters depend on. *)
Record Date := { year : Z; month : Z; day : Z }.

Record Lib := {
  loads : string -> option JValue;        (* json.loads; None = JSONDecodeError *)
  as_float : JValue -> option Q;          (* pydantic float coercion *)
  as_date : JValue -> option Date;        (* pydantic date coercion *)
  fetch_stock_news : JValue -> Result string  (* app.news_api_tool *)
}.

Definition json_loads (L : Lib) (s : string) : Result JValue :=
  match loads L s with Some v => Ret v | None => Throw JSONDecodeError end.

(** Python [l[-n:]] *)
Definition lastn {A} (n : nat) (l : list A) : list A :=
  skipn (length l - n) l.

(** [data.get(k, default)]: [data] must be a dict. *)
Definition py_get (data : JValue) (k : string) (default : JValue)
  : Result JValue :=
  match data with
  | JObj kv => match obj_get kv k with Some v => Ret v | None => Ret default end
  | _ => Throw AttributeError
  end.

(** [data.get("intent", "OTHER").upper()] *)
Definition intent_of (data : JValue) : Result string :=
  match py_get data "intent" (JStr "OTHER") with
  | Ret (JStr s) => Ret (PyStr.upper s)
  | Ret _ => Throw AttributeError
  | Throw e => Throw e
  end.

(* ------------------------------------------------------------------ *)
(** ** [app/models.py]: [TradeCreate] and its pydantic validation *)

Record TradeCreate := {
  ticker : string;
  entry_date : Date;
  entry_price : Q;
  quantity : Q;
  exit_date : option Date;
  exit_price : option Q;
  notes : option string
}.

Definition as_str (v : JValue) : option string :=
  match v with JStr s => Some s | _ => None end.

(** A required field: missing or ill-typed is a validation error. *)
Definition req_field {A} (kv : list (string * JValue)) (k : string)
  (f : JValue -> option A) : option A :=
  match obj_get kv k with Some v => f v | None => None end.

(** An [Optional[...] = None] field: missing or [null] gives [None]. *)
Definition opt_field {A} (kv : list (string * JValue)) (k : string)
  (f : JValue -> option A) : option (option A) :=
  match obj_get kv k with
  | None | Some JNull => Some None
  | Some v => match f v with Some a => Some (Some a) | None => None end
  end.

Definition validate_trade (L : Lib) (v : JValue) : Result TradeCreate :=
  match v with
  | JObj kv =>
      match req_field kv "ticker" as_str,
            req_field kv "entry_date" (as_date L),
            req_field kv "entry_price" (as_float L),
            req_field kv "quantity" (as_float L),
            opt_field kv "exit_date" (as_date L),
            opt_field kv "exit_price" (as_float L),
            opt_field kv "notes" as_str with
      | Some t, Some ed, Some ep, Some q, Some xd, Some xp, Some n =>
          Ret {| ticker := t; entry_date := ed; entry_price := ep;
                 quantity := q; exit_date := xd; exit_price := xp;
                 notes := n |}
      | _, _, _, _, _, _, _ => Throw ValidationError
      end
  | _ => Throw ValidationError
  end.

(** [TradeCreate.model_validate_json(s)] *)
Definition model_validate_json (L : Lib) (s : string) : Result TradeCreate :=
  match loads L s with
  | Some v => validate_trade L v
  | None => Throw ValidationError
  end.

(** The dict a chat method returns: [{"message": ..., "is_grounded": ...}];
    [message = None] is Python's [None]. *)
Record ChatResult := { message : option string; is_grounded : bool }.

(** The dict [analyze_trades] builds itself. *)
Definition analysis_dict (summary : string) : JValue :=
  JObj [("summary", JStr summary); ("insights", JArr [])].

(* ------------------------------------------------------------------ *)
(** ** [app/gemini_service.py] *)

Module Gemini.

Record Part := { part_text : option string }.
Record Content := { parts : option (list Part) }.
Record GroundingMetadata := { search_entry_point : option string }.
Record Candidate := {
  cand_content : option Content;
  grounding_metadata : option GroundingMetadata
}.
Record PromptFeedback := { block_reason : option string }.
(** A [GenerateContentResponse]: [text] is the SDK's [response.text]. *)
Record Response := {
  text : option string;
  candidates : option (list Candidate);
  prompt_feedback : option PromptFeedback
}.

Section Adapter.
Variable L : Lib.
Variable oracle : nat -> Result Response.

(** [json.loads(response.text)]: [json.loads(None)] is a [TypeError]. *)
Definition loads_text (r : Response) : Result JValue :=
  match text r with Some t => json_loads L t | None => Throw TypeError end.

Definition classify_intent (input : string) : M string :=
  let MAX_RETRIES := 2 in
  for_range MAX_RETRIES 0
    (fun attempt =>
       try_except
         (response <- backend oracle KClassify (PText input) ;;
          data <- lift (loads_text response) ;;
          intent <- lift (intent_of data) ;;
          ret (Done intent))
         (fun _ =>
            if Nat.ltb attempt (MAX_RETRIES - 1)
            then sleep 1 ;;; ret Next
            else ret (Done "OTHER")))
    (ret "OTHER").

Definition extract_attempt (input : string) (attempt : nat)
  : M (Step (option TradeCreate)) :=
  let MAX_RETRIES := 3 in
  try_except
    (response <- backend oracle KExtract (PText input) ;;
     match text response with
     | Some t =>
         if PyStr.truthy t &&
            negb (existsb (String.eqb (PyStr.lower (PyStr.strip t)))
                    ["null"; "none"])
         then tr <- lift (model_validate_json L t) ;; ret (Done (Some tr))
         else ret (Done None)
     | None => ret (Done None)
     end)
    (fun e =>
       match e with
       | APIError msg =>
           if PyStr.contains "503" msg && (Nat.ltb attempt (MAX_RETRIES - 1))
           then sleep (2 ^ attempt) ;;; ret Next
           else ret (Done None)
       | _ => ret (Done None)
       end).

Definition extract_loop (input : string) : M (option TradeCreate) :=
  for_range 3 0 (extract_attempt input) (ret None).

Definition extract_trade_from_text (input : string) : M (option TradeCreate) :=
  intent <- classify_intent input ;;
  if String.eqb intent "LOG_TRADE" then extract_loop input else ret None.

Definition fallback_msg : string :=
  "I apologize, but my market intelligence service is overloaded right now. Please try again in a moment.".

Definition generic_msg : string :=
  "I processed your request but could not generate a text response. Please try rephrasing.".

Definition grounded (r : Response) : bool :=
  match candidates r with
  | Some (c :: _) =>
      match grounding_metadata c with
      | Some g => match search_entry_point g with Some _ => true | None => false end
      | None => false
      end
  | _ => false
  end.

(** [message_text += part.text] over the parts with a truthy text *)
Fixpoint join_parts (ps : list Part) : string :=
  match ps with
  | [] => ""
  | p :: ps' =>
      match part_text p with
      | Some t => if PyStr.truthy t then t ++ join_parts ps' else join_parts ps'
      | None => join_parts ps'
      end
  end.

Definition safety_text (r : Response) : string :=
  match prompt_feedback r with
  | Some f =>
      match block_reason f with
      | Some b => "I cannot answer that request. (Safety Block: " ++ b ++ ")"
      | None => ""
      end
  | None => ""
  end.

(** The two [elif] branches of lines 211-219. *)
Definition parts_or_safety (r : Response) : Result string :=
  match candidates r with
  | Some (c :: _) =>
      match cand_content c with
      | None => Throw AttributeError      (* [None.parts] *)
      | Some ct =>
          match parts ct with
          | Some (p :: ps) => Ret (join_parts (p :: ps))
          | _ => Ret (safety_text r)
          end
      end
  | _ => Ret (safety_text r)
  end.

(** The [if / elif / elif] chain and the last resort of lines 204-224. *)
Definition message_text (r : Response) : Result string :=
  let chain :=
    match text r with
    | Some t => if PyStr.truthy t then Ret t else parts_or_safety r
    | None => parts_or_safety r
    end in
  match chain with
  | Ret m => Ret (if PyStr.truthy m then m else generic_msg)
  | Throw e => Throw e
  end.

Definition chat_attempt (user_message : string) (chat_history : list Message)
  (trade_history : list TradeDict) (attempt : nat) : M (Step ChatResult) :=
  let MAX_RETRIES := 3 in
  let fallback := {| message := Some fallback_msg; is_grounded := false |} in
  try_except
    (response <- backend oracle KChat
                   (PMessages (lastn 6 chat_history ++
                               [{| role := "user"; content := user_message |}])) ;;
     let is_grounded := grounded response in
     m <- lift (message_text response) ;;
     ret (Done {| message := Some m; is_grounded := is_grounded |}))
    (fun e =>
       match e with
       | APIError msg =>
           if PyStr.contains "503" msg && Nat.ltb attempt (MAX_RETRIES - 1)
           then sleep (2 ^ attempt) ;;; ret Next
           else ret (Done fallback)
       | _ => ret (Done fallback)
       end).

Definition generate_chat_response (user_message : string)
  (chat_history : list Message) (trade_history : list TradeDict)
  : M ChatResult :=
  for_range 3 0 (chat_attempt user_message chat_history trade_history)
    (ret {| message := Some fallback_msg; is_grounded := false |}).

Definition analyze_trades (trades : list TradeDict) : M JValue :=
  match trades with
  | [] => ret (analysis_dict "No trades to analyze.")
  | _ =>
      try_except
        (response <- backend oracle KAnalyze (PTrades (firstn 50 trades)) ;;
         lift (loads_text response))
        (fun _ => ret (analysis_dict "Analysis failed."))
  end.

(** The result is [Optional[str]]: [JNull] is [None]. *)
Definition generate_title_for_chat (messages : list Message) : M JValue :=
  try_except
    (response <- backend oracle KTitle (PMessages (lastn 5 messages)) ;;
     data <- lift (loads_text response) ;;
     lift (py_get data "title" JNull))
    (fun _ => ret (JStr "New Chat")).

End Adapter.
End Gemini.

(* ------------------------------------------------------------------ *)
(** ** Tool calls shared by [groq_service.py] and [grok_service.py] *)

Record ToolCall := { tc_id : string; fn_name : string; fn_arguments : string }.

Definition dq : string := String (ascii_of_nat 34) EmptyString.

Definition exn_str (e : Exn) : string :=
  match e with
  | APIError t | ValueError t | SDKError t => t
  | ImportError n => n
  | ValidationError => "validation error"
  | JSONDecodeError => "Expecting value"
  | TypeError => "type error"
  | AttributeError => "attribute error"
  | IndexError => "list index out of range"
  | KeyError => "'query'"
  end.

(** [json.dumps({"error": str(tool_err)})] *)
Definition tool_error_json (e : Exn) : string :=
  "{" ++ dq ++ "error" ++ dq ++ ": " ++ dq ++ exn_str e ++ dq ++ "}".

(** [args["query"]] *)
Definition subscript_query (args : JValue) : Result JValue :=
  match args with
  | JObj kv => match obj_get kv "query" with Some v => Ret v | None => Throw KeyError end
  | _ => Throw TypeError
  end.

(** The [for tool_call in ...] loop: the contents of the tool-result turns
    appended to the conversation. *)
Fixpoint tool_turns (L : Lib) (tcs : list ToolCall) : M (list string) :=
  match tcs with
  | [] => ret []
  | tc :: tcs' =>
      r <- (if String.eqb (fn_name tc) "fetch_stock_news"
            then try_except
                   (args <- lift (json_loads L (fn_arguments tc)) ;;
                    q <- lift (subscript_query args) ;;
                    emit (ELookup q) ;;;
                    news <- lift (fetch_stock_news L q) ;;
                    ret [news])
                   (fun tool_err => ret [tool_error_json tool_err])
            else ret []) ;;
      rs <- tool_turns L tcs' ;;
      ret (app r rs)
  end.

(* ------------------------------------------------------------------ *)
(** ** [app/groq_service.py] *)

Module Groq.

(** [response.choices[i].message] *)
Record ChatMessage := {
  msg_content : option string;
  tool_calls : option (list ToolCall)
}.
Record Response := { choices : list ChatMessage }.

Section Adapter.
Variable L : Lib.
Variable oracle : nat -> Result Response.

(** [response.choices[0].message] *)
Definition first_message (r : Response) : Result ChatMessage :=
  match choices r with m :: _ => Ret m | [] => Throw IndexError end.

(** [json.loads(content)]; [json.loads(None)] is a [TypeError]. *)
Definition loads_content (m : ChatMessage) : Result JValue :=
  match msg_content m with Some c => json_loads L c | None => Throw TypeError end.

Definition classify_intent (input : string) : M string :=
  try_except
    (response <- backend oracle KClassify (PText input) ;;
     msg <- lift (first_message response) ;;
     data <- lift (loads_content msg) ;;
     lift (intent_of data))
    (fun _ => ret "OTHER").

Definition extract_trade_from_text (input : string) : M (option TradeCreate) :=
  intent <- classify_intent input ;;
  if negb (String.eqb intent "LOG_TRADE") then ret None else
  try_except
    (response <- backend oracle KExtract (PText input) ;;
     msg <- lift (first_message response) ;;
     match msg_content msg with
     | None => raise AttributeError                (* [None.lower()] *)
     | Some c =>
         if PyStr.contains "null" (PyStr.lower c) &&
            PyStr.contains "error" (PyStr.lower c)
         then ret None
         else tr <- lift (model_validate_json L c) ;; ret (Some tr)
     end)
    (fun _ => ret None).

Definition unavailable_msg : string :=
  "Groq service is currently unavailable. Please try again.".

Definition generate_chat_response (user_message : string)
  (chat_history : list Message) (trade_history : list TradeDict)
  : M ChatResult :=
  try_except
    (response <- backend oracle KChat
                   (PMessages (lastn 6 chat_history ++
                               [{| role := "user"; content := user_message |}])) ;;
     msg <- lift (first_message response) ;;
     match tool_calls msg with
     | Some ((_ :: _) as tcs) =>
         results <- tool_turns L tcs ;;
         final_response <- backend oracle KChatFinal (PToolResults results) ;;
         fm <- lift (first_message final_response) ;;
         ret {| message := msg_content fm; is_grounded := true |}
     | _ => ret {| message := msg_content msg; is_grounded := false |}
     end)
    (fun _ => ret {| message := Some unavailable_msg; is_grounded := false |}).

Definition analyze_trades (trades : list TradeDict) : M JValue :=
  match trades with
  | [] => ret (analysis_dict "No trades.")
  | _ =>
      try_except
        (response <- backend oracle KAnalyze (PTrades (firstn 50 trades)) ;;
         msg <- lift (first_message response) ;;
         lift (loads_content msg))
        (fun _ => ret (analysis_dict "Analysis failed."))
  end.

Definition generate_title_for_chat (messages : list Message) : M JValue :=
  try_except
    (response <- backend oracle KTitle (PMessages (lastn 5 messages)) ;;
     msg <- lift (first_message response) ;;
     data <- lift (loads_content msg) ;;
     lift (py_get data "title" (JStr "New Chat")))
    (fun _ => ret (JStr "New Chat")).

End Adapter.
End Groq.

(* ------------------------------------------------------------------ *)
(** ** [app/grok_service.py] (class [AIService] over [xai_sdk]) *)

Module Grok.

(** The [Response] of [chat.sample(...)] *)
Record Response := { x_content : string; x_tool_calls : list ToolCall }.

Section Adapter.
Variable L : Lib.
Variable oracle : nat -> Result Response.

(** [content.strip()] and the removal of a markdown fence *)
Definition clean (raw : string) : Result string :=
  let c := PyStr.strip raw in
  if PyStr.startswith c "```"
  then match nth_error (PyStr.split c "```") 1 with
       | Some part => Ret (PyStr.strip (PyStr.replace part "json" ""))
       | None => Throw IndexError
       end
  else Ret c.

Definition classify_intent (input : string) : M string :=
  try_except
    (response <- backend oracle KClassify (PText input) ;;
     c <- lift (clean (x_content response)) ;;
     data <- lift (json_loads L c) ;;
     lift (intent_of data))
    (fun _ => ret "OTHER").

Definition extract_trade_from_text (input : string) : M (option TradeCreate) :=
  intent <- classify_intent input ;;
  if negb (String.eqb intent "LOG_TRADE") then ret None else
  try_except
    (response <- backend oracle KExtract (PText input) ;;
     c <- lift (clean (x_content response)) ;;
     if negb (PyStr.contains "null" (PyStr.lower c))
     then tr <- lift (model_validate_json L c) ;; ret (Some tr)
     else ret None)
    (fun _ => ret None).

Definition unavailable_msg : string := "Grok service is currently unavailable.".

Definition generate_chat_response (user_message : string)
  (chat_history : list Message) (trade_history : list TradeDict)
  : M ChatResult :=
  try_except
    (response <- backend oracle KChat
                   (PMessages (lastn 6 chat_history ++
                               [{| role := "user"; content := user_message |}])) ;;
     match x_tool_calls response with
     | (_ :: _) as tcs =>
         results <- tool_turns L tcs ;;
         final_response <- backend oracle KChatFinal (PToolResults results) ;;
         ret {| message := Some (x_content final_response); is_grounded := true |}
     | [] => ret {| message := Some (x_content response); is_grounded := false |}
     end)
    (fun _ => ret {| message := Some unavailable_msg; is_grounded := false |}).

Definition analyze_trades (trades : list TradeDict) : M JValue :=
  match trades with
  | [] => ret (analysis_dict "No trades to analyze.")
  | _ =>
      try_except
        (response <- backend oracle KAnalyze (PTrades (firstn 50 trades)) ;;
         c <- lift (clean (x_content response)) ;;
         lift (json_loads L c))
        (fun _ => ret (analysis_dict "Analysis failed."))
  end.

Definition generate_title_for_chat (messages : list Message) : M JValue :=
  try_except
    (response <- backend oracle KTitle (PMessages (lastn 5 messages)) ;;
     c <- lift (clean (x_content response)) ;;
     data <- lift (json_loads L c) ;;
     lift (py_get data "title" JNull))
    (fun _ => ret (JStr "New Chat")).

End Adapter.
End Grok.

(* ------------------------------------------------------------------ *)
(** ** [app/provider_selector.py] and the start-up of [main.py] *)

Module Startup.

Definition Env := list (string * string).

(** [os.environ.get(k)] *)
Fixpoint env_get (e : Env) (k : string) : option string :=
  match e with
  | [] => None
  | (k', v) :: e' => if String.eqb k k' then Some v else env_get e' k
  end.

Inductive ServiceClass : Type :=
| GeminiService                       (* gemini_service.AIService *)
| GroqService
| GrokService
| PlaceholderService (ai_provider : string).

(** Module body of [provider_selector.py]: the class bound to [AIService].
    The [grok] branch imports [GrokService], a name [grok_service.py] does
    not define (its class is [AIService]). *)
Definition select (e : Env) : Result ServiceClass :=
  let AI_PROVIDER :=
    PyStr.lower (match env_get e "AI_PROVIDER" with Some v => v | None => "gemini" end) in
  if String.eqb AI_PROVIDER "grok" then Throw (ImportError "GrokService")
  else if String.eqb AI_PROVIDER "gemini" then Ret GeminiService
  else if String.eqb AI_PROVIDER "groq" then Ret GroqService
  else Ret (PlaceholderService AI_PROVIDER).

Definition class_name (c : ServiceClass) : string :=
  match c with
  | GeminiService => "AIService"
  | GroqService => "GroqService"
  | GrokService => "AIService"
  | PlaceholderService _ => "PlaceholderService"
  end.

(** [api_key = os.environ.get(k); if not api_key: raise ValueError(msg)] *)
Definition need_key (e : Env) (k msg : string) : Result unit :=
  match env_get e k with
  | Some v => if PyStr.truthy v then Ret tt else Throw (ValueError msg)
  | None => Throw (ValueError msg)
  end.

(** [AIService()]: the constructor of the selected class. *)
Definition construct (e : Env) (c : ServiceClass) : Result unit :=
  match c with
  | GeminiService =>
      need_key e "GEMINI_API_KEY" "GEMINI_API_KEY is missing. Cannot initialize AI client."
  | GroqService =>
      need_key e "GROQ_API_KEY" "GROQ_API_KEY is missing. Cannot initialize Groq client."
  | GrokService =>
      need_key e "XAI_API_KEY" "XAI_API_KEY is missing. Cannot initialize Grok client."
  | PlaceholderService p =>
      Throw (ValueError ("Invalid AI_PROVIDER '" ++ p ++ "' set in environment."))
  end.

(** The stub methods of [PlaceholderService]. *)
Definition placeholder_extract_trade_from_text : M (option TradeCreate) := ret None.
Definition placeholder_generate_chat_response : M ChatResult :=
  ret {| message := Some "Service Not Configured."; is_grounded := false |}.
Definition placeholder_analyze_trades : M JValue :=
  ret (JObj [("summary", JStr "Service Not Configured."); ("insights", JArr [])]).
Definition placeholder_generate_title_for_chat : M JValue := ret (JStr "Error").

(** The environment as [pydantic_settings] reads it: names are matched
    case-insensitively through [{k.lower(): v for k, v in os.environ.items()}],
    so of two names differing only in case the later one wins. *)
Definition settings_env (e : Env) : Env :=
  rev (map (fun kv => (PyStr.lower (fst kv), snd kv)) e).

(** [settings = Settings()] (main.py, line 36). [HOST: str] and the three
    [Optional[str]] keys accept any value; [PORT: int] is validated by
    pydantic's coercion of a [str] to [int], given as [int_ok], and an
    unparsable value raises [ValidationError]. *)
Definition settings (int_ok : string -> bool) (e : Env) : Result unit :=
  match env_get (settings_env e) "port" with
  | Some p => if int_ok p then Ret tt else Throw ValidationError
  | None => Ret tt
  end.

(** How the process ends up after importing and running the top level of
    [main.py]: the import of [provider_selector] (line 16), then
    [Settings()] (line 36), both outside any [try], then [AIService()]
    inside the [try] of lines 39-49. *)
Inductive Boot : Type :=
| Serving (service_name : string)     (* the module body completes; uvicorn serves [app] *)
| Exited (code : nat)                 (* [os._exit(code)] *)
| ImportFailed (e : Exn).             (* uncaught exception at import *)

Definition boot (int_ok : string -> bool) (e : Env) : Boot :=
  match select e with
  | Throw ex => ImportFailed ex
  | Ret c =>
      match settings int_ok e with
      | Throw ex => ImportFailed ex
      | Ret _ =>
          match construct e c with
          | Ret _ => Serving (class_name c)
          | Throw _ => Exited 1
          end
      end
  end.

(** [GET /health] of a serving process *)
Definition health (service_name : string) : list (string * string) :=
  [("status", "ok"); ("service", "ai-microservice"); ("provider", service_name)].

End Startup.

(* ------------------------------------------------------------------ *)
(** ** The [/ai/generate-title] endpoint of [main.py] *)

Inductive Http (A : Type) : Type :=
| HttpOk (a : A)
| HttpError (status : nat) (detail : string).
Arguments HttpOk {A} a.
Arguments HttpError {A} status detail.

(** [TitleResponse(title=x)]: pydantic accepts only a [str]. *)
Definition title_response (x : JValue) : Result string :=
  match x with JStr s => Ret s | _ => Throw ValidationError end.

(** [generate_title_endpoint], for the selected service's
    [generate_title_for_chat(request.messages)]. *)
Definition generate_title_endpoint (service_call : M JValue) : M (Http string) :=
  try_except
    (title <- service_call ;;
     let t := if jtruthy title then title else JStr "New Chat" in
     s <- lift (title_response t) ;;
     ret (HttpOk s))
    (fun e => ret (HttpError 500 ("AI Microservice Error: " ++ exn_str e))).

(* ------------------------------------------------------------------ *)
(** ** The other endpoints of [main.py] *)

(** Sequencing of [Result]s: the first exception propagates. *)
Definition bindr {A B} (r : Result A) (f : A -> Result B) : Result B :=
  match r with Ret a => f a | Throw e => Throw e end.

(** The [except] clause of every endpoint: an [HTTPException] 500. *)
Definition error_500 {A} (e : Exn) : M (Http A) :=
  ret (HttpError 500 ("AI Microservice Error: " ++ exn_str e)).

(** [AIMessageResponse] *)
Record AIMessageResponse := {
  resp_message : string;
  trade_extracted : option TradeCreate;
  resp_is_grounded : bool
}.

(** [message: str]: pydantic refuses [None]. *)
Definition message_field (m : option string) : Result string :=
  match m with Some s => Ret s | None => Throw ValidationError end.

(** [process_chat], for the selected service's
    [generate_chat_response(...)] and
    [extract_trade_from_text(request.user_message)]. *)
Definition process_chat (chat : M ChatResult) (extract : M (option TradeCreate))
  : M (Http AIMessageResponse) :=
  try_except
    (chat_result <- chat ;;
     extracted_trade <- extract ;;
     m <- lift (message_field (message chat_result)) ;;
     ret (HttpOk {| resp_message := m; trade_extracted := extracted_trade;
                    resp_is_grounded := is_grounded chat_result |}))
    error_500.

(** [extract_trade_endpoint], for [extract_trade_from_text(request.text)]. *)
Definition extract_trade_endpoint (service_call : M (option TradeCreate))
  : M (Http (option TradeCreate)) :=
  try_except (t <- service_call ;; ret (HttpOk t)) error_500.

(** [InsightsResponse] *)
Record InsightsResponse := { ir_summary : string; ir_insights : list string }.

(** [List[str]]: every item must be a [str]. *)
Fixpoint str_list (xs : list JValue) : option (list string) :=
  match xs with
  | [] => Some []
  | JStr s :: xs' => match str_list xs' with Some l => Some (s :: l) | None => None end
  | _ :: _ => None
  end.

(** [InsightsResponse(summary=summary, insights=insights)] *)
Definition insights_response (summary insights : JValue) : Result InsightsResponse :=
  match summary, insights with
  | JStr s, JArr xs =>
      match str_list xs with
      | Some l => Ret {| ir_summary := s; ir_insights := l |}
      | None => Throw ValidationError
      end
  | _, _ => Throw ValidationError
  end.

(** [analyze_trades_endpoint], for [analyze_trades(request.trades)]. *)
Definition analyze_trades_endpoint (service_call : M JValue)
  : M (Http InsightsResponse) :=
  try_except
    (result <- service_call ;;
     summary <- lift (py_get result "summary" (JStr "Analysis unavailable")) ;;
     insights <- lift (py_get result "insights" (JArr [])) ;;
     r <- lift (insights_response summary insights) ;;
     ret (HttpOk r))
    error_500.

(* ------------------------------------------------------------------ *)
(** ** [app/news_api_tool.py] *)

Module News.

(** The [httpx] response: its status code and its body. *)
Record HttpResponse := { status_code : nat; body : string }.

Fixpoint digits_of (fuel n : nat) (acc : string) : string :=
  match fuel with
  | O => acc
  | S f =>
      let acc' := String (ascii_of_nat (48 + n mod 10)) acc in
      if Nat.ltb n 10 then acc' else digits_of f (n / 10) acc'
  end.

(** [str(n)] *)
Definition str_of_nat (n : nat) : string := digits_of (S n) n "".

(** [json.dumps({"error": msg})], before the dump *)
Definition error_obj (msg : string) : JValue := JObj [("error", JStr msg)].

Definition missing_key_msg : string :=
  "News API Key is missing. Cannot fetch real-time news.".

Definition internal_msg : string :=
  "An internal error occurred while reaching the News API.".

(** The query parameters of the request. *)
Definition params (query key : string) (limit : nat) : list (string * string) :=
  [("q", query); ("apiKey", key); ("pageSize", str_of_nat limit);
   ("language", "en"); ("sortBy", "publishedAt");
   ("sources", "financial-times,reuters,bloomberg")].

(** [response.raise_for_status()] raises unless the status is 2xx. *)
Definition is_success (r : HttpResponse) : bool :=
  Nat.leb 200 (status_code r) && Nat.ltb (status_code r) 300.

(** [data[k]] *)
Definition subscript (data : JValue) (k : string) : Result JValue :=
  match data with
  | JObj kv => match obj_get kv k with Some v => Ret v | None => Throw KeyError end
  | _ => Throw TypeError
  end.

(** [for x in v]: a list gives its items, a dict its keys, a str its
    characters; anything else is not iterable. *)
Definition py_iter (v : JValue) : Result (list JValue) :=
  match v with
  | JArr xs => Ret xs
  | JObj kv => Ret (map (fun p => JStr (fst p)) kv)
  | JStr s => Ret (map (fun c => JStr (String c EmptyString)) (list_ascii_of_string s))
  | _ => Throw TypeError
  end.

(** The dict built for one article. *)
Definition format_article (article : JValue) : Result JValue :=
  bindr (py_get article "title" JNull) (fun title =>
  bindr (py_get article "source" (JObj [])) (fun src =>
  bindr (py_get src "name" JNull) (fun name =>
  bindr (py_get article "description" JNull) (fun description =>
  bindr (py_get article "publishedAt" JNull) (fun published_at =>
  Ret (JObj [("title", title); ("source", name);
             ("description", description); ("published_at", published_at)])))))).

Fixpoint format_articles (xs : list JValue) : Result (list JValue) :=
  match xs with
  | [] => Ret []
  | x :: xs' => bindr (format_article x) (fun a =>
                bindr (format_articles xs') (fun l => Ret (a :: l)))
  end.

(** The [try] block after [raise_for_status()], from [response.json()]. *)
Definition format_response (L : Lib) (query : string) (resp : HttpResponse)
  : Result JValue :=
  bindr (json_loads L (body resp)) (fun data =>
  bindr (subscript data "status") (fun status =>
  let not_ok := match status with JStr s => negb (String.eqb s "ok") | _ => true end in
  if not_ok then Ret (error_obj ("No recent news found for query: " ++ query)) else
  bindr (subscript data "articles") (fun articles =>
  if negb (jtruthy articles)
  then Ret (error_obj ("No recent news found for query: " ++ query))
  else bindr (py_iter articles) (fun items =>
       bindr (format_articles items) (fun formatted_articles =>
       Ret (JObj [("articles", JArr formatted_articles)])))))).

(** [fetch_stock_news(query, limit)] for a [str] query: the object it
    passes to [json.dumps]. [NEWS_API_KEY] is the module's
    [os.environ.get("NEWS_API_KEY")]; [get] answers [client.get] for the
    query parameters, or the exception it raises. *)
Definition fetch_stock_news (L : Lib) (NEWS_API_KEY : option string)
  (get : list (string * string) -> Result HttpResponse)
  (query : string) (limit : nat) : JValue :=
  match NEWS_API_KEY with
  | Some key =>
      if PyStr.truthy key then
        match get (params query key limit) with
        | Throw _ => error_obj internal_msg
        | Ret resp =>
            if is_success resp then
              match format_response L query resp with
              | Ret v => v
              | Throw _ => error_obj internal_msg
              end
            else error_obj ("News API service error (" ++
                            str_of_nat (status_code resp) ++ ").")
        end
      else error_obj missing_key_msg
  | None => error_obj missing_key_msg
  end.

End News.

(* ------------------------------------------------------------------ *)
(** ** A concrete library, for running the adapters on sample inputs *)

Module Sample.

(** [json.loads] on the listed documents (and a decode error elsewhere). *)
Fixpoint table_loads (tbl : list (string * JValue)) (s : string) : option JValue :=
  match tbl with
  | [] => None
  | (s', v) :: tbl' => if String.eqb s s' then Some v else table_loads tbl' s
  end.

Definition digit (c : ascii) : option Z :=
  let n := nat_of_ascii c in
  if Nat.leb 48 n && Nat.leb n 57 then Some (Z.of_nat (n - 48)) else None.

Fixpoint digits_acc (s : string) (acc : Z) : option Z :=
  match s with
  | EmptyString => Some acc
  | String c s' =>
      match digit c with
      | Some d => digits_acc s' (10 * acc + d)%Z
      | None => None
      end
  end.

Definition number (s : string) : option Z :=
  match s with EmptyString => None | _ => digits_acc s 0 end.

(** A plain decimal [PORT] value *)
Definition int_ok (s : string) : bool :=
  match number s with Some _ => true | None => false end.

(** pydantic's date from an ISO "YYYY-MM-DD" string *)
Definition iso_date (v : JValue) : option Date :=
  match v with
  | JStr s =>
      if Nat.eqb (String.length s) 10 &&
         String.eqb (substring 4 1 s) "-" && String.eqb (substring 7 1 s) "-"
      then match number (substring 0 4 s), number (substring 5 2 s),
                 number (substring 8 2 s) with
           | Some y, Some m, Some d => Some {| year := y; month := m; day := d |}
           | _, _, _ => None
           end
      else None
  | _ => None
  end.

(** pydantic's float from a JSON number *)
Definition json_float (v : JValue) : option Q :=
  match v with JNum q => Some q | _ => None end.

Definition lib (tbl : list (string * JValue)) : Lib := {|
  loads := table_loads tbl;
  as_float := json_float;
  as_date := iso_date;
  fetch_stock_news := fun _ => Ret "{}"
|}.

(** An oracle answering the calls in order from a list. *)
Definition script {R} (rs : list (Result R)) (n : nat) : Result R :=
  match nth_error rs n with Some r => r | None => Throw (SDKError "no reply") end.


(** [{"intent": "<v>"}] as the completion's text *)
Definition intent_doc (v : string) : string :=
  "{" ++ dq ++ "intent" ++ dq ++ ": " ++ dq ++ v ++ dq ++ "}".

Definition groq_reply (c : option string) : Groq.Response :=
  {| Groq.choices := [{| Groq.msg_content := c; Groq.tool_calls := None |}] |}.

(** [{"ticker": "TSLA", "entry_date": "2024-05-01", "entry_price": 200}],
    followed by [, "quantity": 10] when [with_qty] *)
Definition trade_doc (with_qty : bool) : string :=
  "{" ++ dq ++ "ticker" ++ dq ++ ": " ++ dq ++ "TSLA" ++ dq ++ ", " ++
  dq ++ "entry_date" ++ dq ++ ": " ++ dq ++ "2024-05-01" ++ dq ++ ", " ++
  dq ++ "entry_price" ++ dq ++ ": 200" ++
  (if with_qty then ", " ++ dq ++ "quantity" ++ dq ++ ": 10" else "") ++ "}".

Definition trade_json (with_qty : bool) : JValue :=
  JObj ([("ticker", JStr "TSLA"); ("entry_date", JStr "2024-05-01");
         ("entry_price", JNum (inject_Z 200))] ++
        (if with_qty then [("quantity", JNum (inject_Z 10))] else [])).

Definition trade_lib : Lib :=
  lib [(intent_doc "LOG_TRADE", JObj [("intent", JStr "LOG_TRADE")]);
       (trade_doc true, trade_json true); (trade_doc false, trade_json false)].

(** Groq answering [LOG_TRADE], then the trade document *)
Definition groq_trade_oracle (with_qty : bool) : nat -> Result Groq.Response :=
  script [Ret (groq_reply (Some (intent_doc "LOG_TRADE")));
          Ret (groq_reply (Some (trade_doc with_qty)))].

(** A complete trade document with [exit_price: null] and the given
    [notes]. *)
Definition nulls_doc (note : string) : string :=
  "{" ++ dq ++ "ticker" ++ dq ++ ": " ++ dq ++ "TSLA" ++ dq ++ ", " ++
  dq ++ "entry_date" ++ dq ++ ": " ++ dq ++ "2024-05-01" ++ dq ++ ", " ++
  dq ++ "entry_price" ++ dq ++ ": 200, " ++ dq ++ "quantity" ++ dq ++ ": 10, " ++
  dq ++ "exit_price" ++ dq ++ ": null, " ++
  dq ++ "notes" ++ dq ++ ": " ++ dq ++ note ++ dq ++ "}".

Definition nulls_json (note : string) : JValue :=
  JObj [("ticker", JStr "TSLA"); ("entry_date", JStr "2024-05-01");
        ("entry_price", JNum (inject_Z 200)); ("quantity", JNum (inject_Z 10));
        ("exit_price", JNull); ("notes", JStr note)].

Definition nulls_lib (note : string) : Lib :=
  lib [(intent_doc "LOG_TRADE", JObj [("intent", JStr "LOG_TRADE")]);
       (nulls_doc note, nulls_json note)].

End Sample.

(** The five categories of [IntentResponse]. *)
Definition intent_categories : list string :=
  ["LOG_TRADE"; "REVIEW_ANALYSIS"; "NEWS_MARKET"; "PLAN_STRATEGY"; "OTHER"].

(** The text each adapter parses out of a completion. *)
Definition gemini_reply_text (r : Gemini.Response) : option string := Gemini.text r.

Definition groq_reply_text (r : Groq.Response) : option string :=
  match Groq.choices r with m :: _ => Groq.msg_content m | [] => None end.

Definition grok_reply_text (r : Grok.Response) : option string :=
  match Grok.clean (Grok.x_content r) with Ret c => Some c | Throw _ => None end.

(** The first completion asks for tools (Groq: a non-empty [tool_calls]
    of its first choice; Grok: a non-empty [tool_calls]). *)
Definition groq_tool_request (r : Groq.Response) : bool :=
  match Groq.choices r with
  | m :: _ => match Groq.tool_calls m with Some (_ :: _) => true | _ => false end
  | [] => false
  end.

Definition grok_tool_request (r : Grok.Response) : bool :=
  match Grok.x_tool_calls r with _ :: _ => true | [] => false end.

(** The call returned a response with a first choice. *)
Definition groq_answered (r : Result Groq.Response) : bool :=
  match r with
  | Ret resp => match Groq.choices resp with _ :: _ => true | [] => false end
  | Throw _ => false
  end.

Definition succeeded {R} (r : Result R) : bool :=
  match r with Ret _ => true | Throw _ => false end.

(** [analyze_trades]'s value from the parse of the completion: the
    parsed JSON, or the ["Analysis failed."] dict when the parse raised. *)
Definition or_failed (r : Result JValue) : JValue :=
  match r with Ret v => v | Throw _ => analysis_dict "Analysis failed." end.

(** The log of [k] attempts of a retry loop: each attempt's call [ev],
    with a sleep of [2 ^ attempt] seconds between two attempts. *)
Fixpoint retry_events (ev : Event) (attempt k : nat) : list Event :=
  match k with
  | O => []
  | S O => [ev]
  | S k' => ev :: ESleep (2 ^ attempt) :: retry_events ev (S attempt) k'
  end.

(** The SDK raised an [APIError] whose text contains ["503"]. *)
Definition is_503 {R} (r : Result R) : Prop :=
  exists msg, r = Throw (APIError msg) /\ PyStr.contains "503" msg = true.

(** The retry policy of [gemini_service.py], for a loop [m] whose attempts
    each make the call [ev] and whose fallback result is [fb]: from any
    state, [m] returns normally after [k] attempts, [1 <= k <= 3]; its log
    is the [k] calls separated by sleeps of 1 s, 2 s; every attempt but the
    last failed with a 503 [APIError]; a 503 failure of one of the first
    two attempts always leads to another attempt; and when the last call
    raised (any exception), the result is [fb]. *)
Definition retry_run {R A} (o : nat -> Result R) (ev : Event) (fb : A)
  (res : Result A * St) (s : St) : Prop :=
  exists a k,
    fst res = Ret a /\ 1 <= k <= 3 /\
    calls (snd res) = calls s + k /\
    log (snd res) = (log s ++ retry_events ev 0 k)%list /\
    (forall i, i + 1 < k -> is_503 (o (calls s + i))) /\
    (forall i, i < k -> i < 2 -> is_503 (o (calls s + i)) -> i + 1 < k) /\
    (forall e, o (calls s + (k - 1)) = Throw e -> a = fb).

Definition retry_policy {R A} (o : nat -> Result R) (ev : Event) (fb : A)
  (m : M A) : Prop :=
  forall s, retry_run o ev fb (m s) s.

(** The events that may follow the single call [ev] of a function that
    does not retry: no sleep and no second [ev]. *)
Definition no_retry (ev e : Event) : Prop :=
  match e with ESleep _ => False | _ => e <> ev end.

(** A single attempt: run from [s], the function returns normally; its
    log is the call [ev] followed by no sleep and no second [ev]; and when
    that call raised, the result is [fb] and nothing follows the call. *)
Definition once_run {R A} (o : nat -> Result R) (ev : Event) (fb : A)
  (res : Result A * St) (s : St) : Prop :=
  exists a,
    fst res = Ret a /\
    (exists sfx, log (snd res) = (log s ++ ev :: sfx)%list /\
                 Forall (no_retry ev) sfx) /\
    (forall e, o (calls s) = Throw e -> a = fb /\ log (snd res) = (log s ++ [ev])%list).

Definition once {R A} (o : nat -> Result R) (ev : Event) (fb : A) (m : M A) : Prop :=
  forall s, once_run o ev fb (m s) s.

(** The attempt shared by [extract_trade_from_text] and
    [generate_chat_response] of [gemini_service.py]: one call [k p], the
    rest [cont] of the [try] block, and the [except] clauses that sleep
    [2 ** attempt] seconds and go on after a 503 [APIError] of one of the
    first [MAX_RETRIES - 1] attempts, and otherwise return [fb]. *)
Definition retry_body {R A} (o : nat -> Result R) (k : CallKind) (p : Payload)
  (fb : A) (cont : R -> M (Step A)) (attempt : nat) : M (Step A) :=
  let MAX_RETRIES := 3 in
  try_except
    (response <- backend o k p ;; cont response)
    (fun e =>
       match e with
       | APIError msg =>
           if PyStr.contains "503" msg && Nat.ltb attempt (MAX_RETRIES - 1)
           then sleep (2 ^ attempt) ;;; ret Next
           else ret (Done fb)
       | _ => ret (Done fb)
       end).

(** The rest of the [try] block neither touches the state nor raises an
    [APIError], and it always leaves the loop. *)
Definition cont_ok {R A} (cont : R -> M (Step A)) : Prop :=
  forall r s,
    (exists a, cont r s = (Ret (Done a), s)) \/
    (exists e, cont r s = (Throw e, s) /\ forall msg, e <> APIError msg).

(** The result [a] of a retry loop whose last attempt made call number
    [n]: [fb] when that call raised, and otherwise the result of the rest
    of the [try] block on its response, or [fb] when that rest raised. *)
Definition last_result {R A} (o : nat -> Result R) (cont : R -> M (Step A))
  (fb : A) (n : nat) (a : A) : Prop :=
  match o n with
  | Throw _ => a = fb
  | Ret r => exists s', cont r s' = (Ret (Done a), s') \/
                        ((exists e, cont r s' = (Throw e, s')) /\ a = fb)
  end.

(** The event is an extraction call. *)
Definition is_extract_call (ev : Event) : bool :=
  match ev with ECall KExtract _ => true | _ => false end.

(** The [i]-th trade of a list kept oldest first. *)
Definition numbered_trade (i : nat) : TradeDict :=
  [("trade_no", JNum (inject_Z (Z.of_nat i)))]%string.

(** The environment sets [k] to a non-empty value. *)
Definition key_set (e : Startup.Env) (k : string) : Prop :=
  exists v, Startup.env_get e k = Some v /\ PyStr.truthy v = true.

(** [os.environ.get("AI_PROVIDER", "gemini").lower()] *)
Definition provider (e : Startup.Env) : string :=
  PyStr.lower (match Startup.env_get e "AI_PROVIDER" with Some v => v | None => "gemini" end).

(** The intent one attempt of Gemini's classification gets from the
    answer to its call, or the exception the attempt raises. *)
Definition gemini_attempt (L : Lib) (r : Result Gemini.Response) : Result string :=
  bindr r (fun resp => bindr (Gemini.loads_text L resp) intent_of).

(** The title endpoint's answer [h] for the title value [v]: 200 with
    the non-empty string [v] itself when [v] is truthy, 200 with
    ["New Chat"] when [v] is falsy, and a 500 error (pydantic's
    [ValidationError]) when [v] is truthy but not a string. *)
Definition title_outcome (v : JValue) (h : Http string) : Prop :=
  match h with
  | HttpOk t =>
      t <> "" /\ ((jtruthy v = true /\ v = JStr t) \/
                  (jtruthy v = false /\ t = "New Chat"))
  | HttpError c d =>
      c = 500 /\ d = "AI Microservice Error: " ++ exn_str ValidationError /\
      jtruthy v = true /\ forall t, v <> JStr t
  end.

(** The body of [analyze_trades_endpoint] after the service call. *)
Definition insights_of (result : JValue) : Result InsightsResponse :=
  bindr (py_get result "summary" (JStr "Analysis unavailable")) (fun summary =>
  bindr (py_get result "insights" (JArr [])) (fun insights =>
  insights_response summary insights)).

(** What [analyze_trades_endpoint] answers ([h]) for an adapter with
    oracle [o]: a 200, or a 500 for a non-empty list whose completion
    parses to a value that [InsightsResponse] does not accept. *)
Definition analyze_outcome {R} (L : Lib) (o : nat -> Result R)
  (reply_text : R -> option string) (trades : list TradeDict) (s : St)
  (h : Result (Http InsightsResponse)) : Prop :=
  (exists r, h = Ret (HttpOk r)) \/
  (exists resp t v e,
     trades <> [] /\ o (calls s) = Ret resp /\ reply_text resp = Some t /\
     loads L t = Some v /\ insights_of v = Throw e /\
     h = Ret (HttpError 500 ("AI Microservice Error: " ++ exn_str e))).

(** The tool call asks for [fetch_stock_news]. *)
Definition is_fetch (tc : ToolCall) : bool :=
  String.eqb (fn_name tc) "fetch_stock_news".

Definition is_lookup (ev : Event) : Prop :=
  match ev with ELookup _ => True | _ => False end.

(** [a] is the article dict built from the item [x] of [data['articles']]. *)
Definition formatted_from (x a : JValue) : Prop :=
  exists title src name description published_at,
    py_get x "title" JNull = Ret title /\
    py_get x "source" (JObj []) = Ret src /\
    py_get src "name" JNull = Ret name /\
    py_get x "description" JNull = Ret description /\
    py_get x "publishedAt" JNull = Ret published_at /\
    a = JObj [("title", title); ("source", name);
              ("description", description); ("published_at", published_at)].

(** The value of one attempt over the answer [r] to its call: what
    [value] computes from the completion, or [fb] when the call or that
    computation raised. *)
Definition or_fallback {R A} (value : R -> Result A) (fb : A) (r : Result R) : A :=
  match r with
  | Ret resp => match value resp with Ret a => a | Throw _ => fb end
  | Throw _ => fb
  end.

(** The retry loop of [gemini_service.py] in full, for a loop whose
    attempts each make the call [ev], whose [try] block computes [value]
    from the completion, and whose fallback is [fb]: from state [s] it
    returns normally after [k] attempts, [1 <= k <= 3]; its log is the
    [k] calls separated by sleeps of 1 s, 2 s; every attempt but the last
    failed with a 503 [APIError]; a 503 failure of one of the first two
    attempts always leads to another attempt; and the result is that of
    the last attempt: [value] of its completion, or [fb] when its call or
    [value] raised. *)
Definition retry_outcome {R A} (o : nat -> Result R) (ev : Event) (fb : A)
  (value : R -> Result A) (res : Result A * St) (s : St) : Prop :=
  exists k,
    fst res = Ret (or_fallback value fb (o (calls s + (k - 1)))) /\
    1 <= k <= 3 /\
    calls (snd res) = calls s + k /\
    log (snd res) = (log s ++ retry_events ev 0 k)%list /\
    (forall i, i + 1 < k -> is_503 (o (calls s + i))) /\
    (forall i, i < k -> i < 2 -> is_503 (o (calls s + i)) -> i + 1 < k).

(** A single attempt in full: exactly one call [ev] and nothing else in
    the log, and the result computed by [value] from its completion, or
    [fb] when the call or [value] raised. *)
Definition once_outcome {R A} (o : nat -> Result R) (ev : Event) (fb : A)
  (value : R -> Result A) (res : Result A * St) (s : St) : Prop :=
  res = (Ret (or_fallback value fb (o (calls s))),
         {| calls := S (calls s); log := (log s ++ [ev])%list |}).

(** The [try] block of Gemini's extraction attempt after the call
    (gemini_service.py, lines 123-125). *)
Definition gemini_extract_value (L : Lib) (r : Gemini.Response)
  : Result (option TradeCreate) :=
  match Gemini.text r with
  | Some t =>
      if PyStr.truthy t &&
         negb (existsb (String.eqb (PyStr.lower (PyStr.strip t))) ["null"; "none"])
      then bindr (model_validate_json L t) (fun tr => Ret (Some tr))
      else Ret None
  | None => Ret None
  end.

(** The [try] block of Gemini's chat attempt after the call. *)
Definition gemini_chat_value (r : Gemini.Response) : Result ChatResult :=
  bindr (Gemini.message_text r)
    (fun m => Ret {| message := Some m; is_grounded := Gemini.grounded r |}).

(** The [try] block of Groq's extraction after the call. *)
Definition groq_extract_value (L : Lib) (r : Groq.Response)
  : Result (option TradeCreate) :=
  bindr (Groq.first_message r) (fun msg =>
    match Groq.msg_content msg with
    | None => Throw AttributeError
    | Some c =>
        if PyStr.contains "null" (PyStr.lower c) &&
           PyStr.contains "error" (PyStr.lower c)
        then Ret None
        else bindr (model_validate_json L c) (fun tr => Ret (Some tr))
    end).

(** The [try] block of Grok's extraction after the call. *)
Definition grok_extract_value (L : Lib) (r : Grok.Response)
  : Result (option TradeCreate) :=
  bindr (Grok.clean (Grok.x_content r)) (fun c =>
    if negb (PyStr.contains "null" (PyStr.lower c))
    then bindr (model_validate_json L c) (fun tr => Ret (Some tr))
    else Ret None).

(** The [try] blocks of the three [generate_title_for_chat] after the
    call. *)
Definition gemini_title_value (L : Lib) (r : Gemini.Response) : Result JValue :=
  bindr (Gemini.loads_text L r) (fun data => py_get data "title" JNull).

Definition groq_title_value (L : Lib) (r : Groq.Response) : Result JValue :=
  bindr (Groq.first_message r) (fun msg =>
  bindr (Groq.loads_content L msg) (fun data =>
  py_get data "title" (JStr "New Chat"))).

Definition grok_title_value (L : Lib) (r : Grok.Response) : Result JValue :=
  bindr (Grok.clean (Grok.x_content r)) (fun c =>
  bindr (json_loads L c) (fun data => py_get data "title" JNull)).

(** The intent a classification call yields from the answer [r]: the
    upper-cased ["intent"] string of the JSON object in the completion's
    text, and ["OTHER"] when the call raised, the text is missing or not
    JSON, the JSON is not an object, or its ["intent"] is missing or not
    a string. *)
Definition intent_in {R} (L : Lib) (reply_text : R -> option string)
  (r : Result R) : string :=
  match r with
  | Ret resp =>
      match reply_text resp with
      | Some t =>
          match loads L t with
          | Some (JObj kv) =>
              match obj_get kv "intent" with
              | Some (JStr x) => PyStr.upper x
              | _ => "OTHER"
              end
          | _ => "OTHER"
          end
      | None => "OTHER"
      end
  | Throw _ => "OTHER"
  end.

(** The quantity of [tr] is pydantic's coercion of the ["quantity"] field
    of the JSON object in the text of the completion [r]. *)
Definition quantity_in {R} (L : Lib) (reply_text : R -> option string)
  (r : R) (tr : TradeCreate) : Prop :=
  exists c kv v, reply_text r = Some c /\ loads L c = Some (JObj kv) /\
    obj_get kv "quantity" = Some v /\ as_float L v = Some (quantity tr).

(** The text of the completion [r] is a JSON object without ["quantity"]. *)
Definition lacks_quantity {R} (L : Lib) (reply_text : R -> option string)
  (r : R) : Prop :=
  exists c kv, reply_text r = Some c /\ loads L c = Some (JObj kv) /\
    obj_get kv "quantity" = None.

(** The reply of Groq's [generate_chat_response] for the answers [r1] of
    its first call and [r2] of the call after the tool turns: the first
    choice's content when it asks for no tool, and otherwise the final
    completion's first content; the "unavailable" message when a call
    raised or its completion has no choice. *)
Definition groq_chat_reply (r1 r2 : Result Groq.Response) : ChatResult :=
  let fb := {| message := Some Groq.unavailable_msg; is_grounded := false |} in
  match bindr r1 Groq.first_message with
  | Throw _ => fb
  | Ret msg =>
      match Groq.tool_calls msg with
      | Some (_ :: _) =>
          match bindr r2 Groq.first_message with
          | Ret fm => {| message := Groq.msg_content fm; is_grounded := true |}
          | Throw _ => fb
          end
      | _ => {| message := Groq.msg_content msg; is_grounded := false |}
      end
  end.

(** The same for Grok's [generate_chat_response]. *)
Definition grok_chat_reply (r1 r2 : Result Grok.Response) : ChatResult :=
  let fb := {| message := Some Grok.unavailable_msg; is_grounded := false |} in
  match r1 with
  | Throw _ => fb
  | Ret resp =>
      match Grok.x_tool_calls resp with
      | _ :: _ =>
          match r2 with
          | Ret f => {| message := Some (Grok.x_content f); is_grounded := true |}
          | Throw _ => fb
          end
      | [] => {| message := Some (Grok.x_content resp); is_grounded := false |}
      end
  end.

(* ================================================================== *)
(** * Properties of the monad *)

Close Scope string_scope.
Open Scope list_scope.

(** [m] never lets an exception escape. *)
Definition total {A} (m : M A) : Prop :=
  forall s, exists a s', m s = (Ret a, s').

(** [m] only appends to the log, and only events satisfying [P]. *)
Definition emits {A} (P : Event -> Prop) (m : M A) : Prop :=
  forall s, exists sfx, log (snd (m s)) = log s ++ sfx /\ Forall P sfx.

(** The first event [m] logs is [ev]. *)
Definition starts_with {A} (ev : Event) (m : M A) : Prop :=
  forall s, exists sfx, log (snd (m s)) = log s ++ ev :: sfx.

Definition any_event (_ : Event) : Prop := True.

Definition not_kind (k : CallKind) (ev : Event) : Prop :=
  match ev with ECall k' _ => k' <> k | _ => True end.

Lemma total_ret {A} (a : A) : total (ret a).
Proof. intros s; now exists a, s. Qed.

Lemma total_bind {A B} (m : M A) (f : A -> M B) :
  total m -> (forall a, total (f a)) -> total (bind m f).
Proof.
  intros Hm Hf s; unfold bind.
  destruct (Hm s) as (a & s' & ->); apply Hf.
Qed.

Lemma total_try {A} (m : M A) (h : Exn -> M A) :
  (forall e, total (h e)) -> total (try_except m h).
Proof.
  intros Hh s; unfold try_except.
  destruct (m s) as [[a|e] s']; [now exists a, s' | apply Hh].
Qed.

Lemma total_emit ev : total (emit ev).
Proof. intros s; eexists _, _; reflexivity. Qed.

Lemma total_for_range {A} n start (body : nat -> M (Step A)) (after : M A) :
  (forall i, total (body i)) -> total after -> total (for_range n start body after).
Proof.
  revert start; induction n as [|n IH]; intros start Hb Ha; cbn; [exact Ha|].
  apply total_bind; [apply Hb|]. intros [a|]; [apply total_ret | now apply IH].
Qed.

Lemma emits_ret {A} P (a : A) : emits P (ret a).
Proof. intros s; exists []; now rewrite app_nil_r. Qed.

Lemma emits_raise {A} P e : emits (A:=A) P (raise e).
Proof. intros s; exists []; now rewrite app_nil_r. Qed.

Lemma emits_lift {A} P (r : Result A) : emits P (lift r).
Proof. destruct r; [apply emits_ret | apply emits_raise]. Qed.

Lemma emits_bind {A B} P (m : M A) (f : A -> M B) :
  emits P m -> (forall a, emits P (f a)) -> emits P (bind m f).
Proof.
  intros Hm Hf s; unfold bind.
  destruct (Hm s) as (sfx & Hl & HP).
  destruct (m s) as [[a|e] s'] eqn:E; cbn in Hl.
  - destruct (Hf a s') as (sfx' & Hl' & HP').
    exists (sfx ++ sfx'); split; [rewrite Hl', Hl; symmetry; apply app_assoc|].
    now apply Forall_app.
  - now exists sfx.
Qed.

Lemma emits_try {A} P (m : M A) (h : Exn -> M A) :
  emits P m -> (forall e, emits P (h e)) -> emits P (try_except m h).
Proof.
  intros Hm Hh s; unfold try_except.
  destruct (Hm s) as (sfx & Hl & HP).
  destruct (m s) as [[a|e] s'] eqn:E; cbn in Hl.
  - now exists sfx.
  - destruct (Hh e s') as (sfx' & Hl' & HP').
    exists (sfx ++ sfx'); split; [rewrite Hl', Hl; symmetry; apply app_assoc|].
    now apply Forall_app.
Qed.

Lemma emits_emit P ev : P ev -> emits P (emit ev).
Proof. intros H s; exists [ev]; split; [reflexivity | now constructor]. Qed.

Lemma emits_backend {R} P (oracle : nat -> Result R) k p :
  P (ECall k p) -> emits P (backend oracle k p).
Proof.
  intros H s; exists [ECall k p]; unfold backend.
  destruct (oracle (calls s)); split; try reflexivity; now constructor.
Qed.

Lemma emits_for_range {A} P n start (body : nat -> M (Step A)) (after : M A) :
  (forall i, emits P (body i)) -> emits P after ->
  emits P (for_range n start body after).
Proof.
  revert start; induction n as [|n IH]; intros start Hb Ha; cbn; [exact Ha|].
  apply emits_bind; [apply Hb|]. intros [a|]; [apply emits_ret | now apply IH].
Qed.

Lemma emits_sleep P n : P (ESleep n) -> emits P (sleep n).
Proof. apply emits_emit. Qed.

Lemma starts_with_backend {R} (oracle : nat -> Result R) k p :
  starts_with (ECall k p) (backend oracle k p).
Proof. intros s; exists []; unfold backend; now destruct (oracle (calls s)). Qed.

Lemma starts_with_bind {A B} ev (m : M A) (f : A -> M B) :
  starts_with ev m -> (forall a, emits any_event (f a)) ->
  starts_with ev (bind m f).
Proof.
  intros Hm Hf s; unfold bind.
  destruct (Hm s) as (sfx & Hl).
  destruct (m s) as [[a|e] s'] eqn:E; cbn in Hl.
  - destruct (Hf a s') as (sfx' & Hl' & _).
    exists (sfx ++ sfx'); rewrite Hl', Hl, <- app_assoc; reflexivity.
  - now exists sfx.
Qed.

Lemma starts_with_try {A} ev (m : M A) (h : Exn -> M A) :
  starts_with ev m -> (forall e, emits any_event (h e)) ->
  starts_with ev (try_except m h).
Proof.
  intros Hm Hh s; unfold try_except.
  destruct (Hm s) as (sfx & Hl).
  destruct (m s) as [[a|e] s'] eqn:E; cbn in Hl.
  - now exists sfx.
  - destruct (Hh e s') as (sfx' & Hl' & _).
    exists (sfx ++ sfx'); rewrite Hl', Hl, <- app_assoc; reflexivity.
Qed.

Lemma starts_with_for_range {A} ev n start (body : nat -> M (Step A)) after :
  starts_with ev (body start) -> (forall i, emits any_event (body i)) ->
  emits any_event after ->
  starts_with ev (for_range (S n) start body after).
Proof.
  intros H0 Hb Ha; cbn; apply starts_with_bind; [exact H0|].
  intros [a|]; [apply emits_ret | now apply emits_for_range].
Qed.

Lemma emits_tool_turns P L tcs :
  (forall q, P (ELookup q)) -> emits P (tool_turns L tcs).
Proof.
  intros HP; induction tcs as [|tc tcs IH]; cbn; [apply emits_ret|].
  apply emits_bind; [|intros; apply emits_bind; [exact IH | intros; apply emits_ret]].
  destruct (String.eqb _ _); [|apply emits_ret].
  apply emits_try; [|intros; apply emits_ret].
  apply emits_bind; [apply emits_lift|]; intros.
  apply emits_bind; [apply emits_lift|]; intros.
  apply emits_bind; [now apply emits_emit|]; intros.
  apply emits_bind; [apply emits_lift|]; intros; apply emits_ret.
Qed.

Lemma total_tool_turns L tcs : total (tool_turns L tcs).
Proof.
  induction tcs as [|tc tcs IH]; cbn; [apply total_ret|].
  apply total_bind; [|intros; apply total_bind; [exact IH | intros; apply total_ret]].
  destruct (String.eqb _ _); [|apply total_ret].
  apply total_try; intros; apply total_ret.
Qed.

Create HintDb monad.
#[export] Hint Resolve total_ret total_emit total_tool_turns
  emits_ret emits_raise emits_lift emits_backend emits_sleep
  emits_tool_turns : monad.

(** Decompose a program into its monadic steps. *)
Ltac monad_step :=
  match goal with
  | |- total (bind _ _) => apply total_bind; [|intro]
  | |- total (try_except _ _) => apply total_try; intro
  | |- total (for_range _ _ _ _) => apply total_for_range; [intro|]
  | |- emits _ (bind _ _) => apply emits_bind; [|intro]
  | |- emits _ (try_except _ _) => apply emits_try; [|intro]
  | |- emits _ (for_range _ _ _ _) => apply emits_for_range; [intro|]
  | |- total (if ?b then _ else _) => destruct b
  | |- emits _ (if ?b then _ else _) => destruct b
  | |- total (match ?x with _ => _ end) => destruct x
  | |- emits _ (match ?x with _ => _ end) => destruct x
  | |- total (sleep _) => apply total_emit
  | |- emits _ (backend _ _ _) => apply emits_backend; cbn; solve [exact I | discriminate]
  | |- emits _ (sleep _) => apply emits_sleep; exact I
  | |- emits _ (emit _) => apply emits_emit; exact I
  | |- emits _ (tool_turns _ _) => apply emits_tool_turns; intro; exact I
  | |- _ => solve [eauto with monad]
  end.
Ltac monad_auto := repeat (monad_step; cbn beta iota).

(* ================================================================== *)
(** * Intent gating of the extraction *)

Section Gating.
Variable L : Lib.
Variable input : string.

Lemma gemini_classify_total o : total (Gemini.classify_intent L o input).
Proof. unfold Gemini.classify_intent; monad_auto. Qed.

Lemma groq_classify_total o : total (Groq.classify_intent L o input).
Proof. unfold Groq.classify_intent; monad_auto. Qed.

Lemma grok_classify_total o : total (Grok.classify_intent L o input).
Proof. unfold Grok.classify_intent; monad_auto. Qed.

Lemma gemini_classify_emits o :
  emits (not_kind KExtract) (Gemini.classify_intent L o input).
Proof. unfold Gemini.classify_intent; monad_auto. Qed.

Lemma groq_classify_emits o :
  emits (not_kind KExtract) (Groq.classify_intent L o input).
Proof. unfold Groq.classify_intent; monad_auto. Qed.

Lemma grok_classify_emits o :
  emits (not_kind KExtract) (Grok.classify_intent L o input).
Proof. unfold Grok.classify_intent; monad_auto. Qed.

Lemma gemini_extract_starts o :
  starts_with (ECall KClassify (PText input)) (Gemini.extract_trade_from_text L o input).
Proof.
  unfold Gemini.extract_trade_from_text, Gemini.classify_intent,
    Gemini.extract_loop, Gemini.extract_attempt.
  apply starts_with_bind; [|intros; monad_auto].
  apply starts_with_for_range; [|intros; monad_auto|monad_auto].
  apply starts_with_try; [|intros; monad_auto].
  apply starts_with_bind; [apply starts_with_backend | intros; monad_auto].
Qed.

Lemma groq_extract_starts o :
  starts_with (ECall KClassify (PText input)) (Groq.extract_trade_from_text L o input).
Proof.
  unfold Groq.extract_trade_from_text, Groq.classify_intent.
  apply starts_with_bind; [|intros; monad_auto].
  apply starts_with_try; [|intros; monad_auto].
  apply starts_with_bind; [apply starts_with_backend | intros; monad_auto].
Qed.

Lemma grok_extract_starts o :
  starts_with (ECall KClassify (PText input)) (Grok.extract_trade_from_text L o input).
Proof.
  unfold Grok.extract_trade_from_text, Grok.classify_intent.
  apply starts_with_bind; [|intros; monad_auto].
  apply starts_with_try; [|intros; monad_auto].
  apply starts_with_bind; [apply starts_with_backend | intros; monad_auto].
Qed.

End Gating.

Lemma starts_with_head {A} ev (m : M A) :
  starts_with ev m -> hd_error (log (snd (run m))) = Some ev.
Proof. intros H; unfold run; destruct (H st0) as (sfx & ->); reflexivity. Qed.

Lemma no_extract_call sfx :
  Forall (not_kind KExtract) sfx -> existsb is_extract_call sfx = false.
Proof.
  induction 1 as [|ev sfx Hev _ IH]; [reflexivity|].
  cbn; rewrite IH, orb_false_r.
  destruct ev as [[] p| |]; cbn in *; congruence.
Qed.

(** The shape shared by the three [extract_trade_from_text]: the
    classification [c], then a continuation that returns [None] unless the
    intent is [LOG_TRADE]. *)
Lemma gate_skips_extraction {A} (c : M string) (k : string -> M (option A)) :
  total c -> emits (not_kind KExtract) c ->
  (forall i, i <> "LOG_TRADE"%string -> k i = ret None) ->
  fst (run c) <> Ret "LOG_TRADE"%string ->
  fst (run (bind c k)) = Ret None /\
  existsb is_extract_call (log (snd (run (bind c k)))) = false.
Proof.
  intros Ht He Hk Hne.
  destruct (Ht st0) as (i & s' & E).
  destruct (He st0) as (sfx & Hl & HF).
  unfold run in *; rewrite E in Hne, Hl; cbn in Hne, Hl.
  unfold bind; rewrite E.
  rewrite Hk by congruence; cbn.
  split; [reflexivity|]. rewrite Hl; now apply no_extract_call.
Qed.

(** C1. In every adapter, [extract_trade_from_text] first calls the
    intent classifier (the first logged upstream call is the
    classification of the input), and when the classified intent is not
    [LOG_TRADE] it returns [None] without any extraction call. *)
Theorem extract_gated_by_intent (L : Lib) (input : string) :
  (forall o : nat -> Result Gemini.Response,
     hd_error (log (snd (run (Gemini.extract_trade_from_text L o input))))
       = Some (ECall KClassify (PText input)) /\
     (fst (run (Gemini.classify_intent L o input)) <> Ret "LOG_TRADE"%string ->
      fst (run (Gemini.extract_trade_from_text L o input)) = Ret None /\
      existsb is_extract_call
        (log (snd (run (Gemini.extract_trade_from_text L o input)))) = false)) /\
  (forall o : nat -> Result Groq.Response,
     hd_error (log (snd (run (Groq.extract_trade_from_text L o input))))
       = Some (ECall KClassify (PText input)) /\
     (fst (run (Groq.classify_intent L o input)) <> Ret "LOG_TRADE"%string ->
      fst (run (Groq.extract_trade_from_text L o input)) = Ret None /\
      existsb is_extract_call
        (log (snd (run (Groq.extract_trade_from_text L o input)))) = false)) /\
  (forall o : nat -> Result Grok.Response,
     hd_error (log (snd (run (Grok.extract_trade_from_text L o input))))
       = Some (ECall KClassify (PText input)) /\
     (fst (run (Grok.classify_intent L o input)) <> Ret "LOG_TRADE"%string ->
      fst (run (Grok.extract_trade_from_text L o input)) = Ret None /\
      existsb is_extract_call
        (log (snd (run (Grok.extract_trade_from_text L o input)))) = false)).
Proof.
  split; [|split]; intros o; (split; [apply starts_with_head|]).
  - apply gemini_extract_starts.
  - apply gate_skips_extraction;
      [apply gemini_classify_total | apply gemini_classify_emits|].
    intros i Hi; apply String.eqb_neq in Hi; now rewrite Hi.
  - apply groq_extract_starts.
  - apply gate_skips_extraction;
      [apply groq_classify_total | apply groq_classify_emits|].
    intros i Hi; apply String.eqb_neq in Hi; now rewrite Hi.
  - apply grok_extract_starts.
  - apply gate_skips_extraction;
      [apply grok_classify_total | apply grok_classify_emits|].
    intros i Hi; apply String.eqb_neq in Hi; now rewrite Hi.
Qed.

(* ================================================================== *)
(** * [analyze_trades] on an empty list *)

(** C10. In every adapter, [analyze_trades []] returns at once
    [{"summary": <fixed text saying there are no trades>, "insights": []}]:
    the state is unchanged, so no upstream call is made and nothing is
    logged. *)
Theorem analyze_empty_no_call (L : Lib) :
  (forall (o : nat -> Result Gemini.Response) s,
     Gemini.analyze_trades L o [] s =
       (Ret (analysis_dict "No trades to analyze."), s)) /\
  (forall (o : nat -> Result Groq.Response) s,
     Groq.analyze_trades L o [] s = (Ret (analysis_dict "No trades."), s)) /\
  (forall (o : nat -> Result Grok.Response) s,
     Grok.analyze_trades L o [] s =
       (Ret (analysis_dict "No trades to analyze."), s)).
Proof. repeat split. Qed.

(* ================================================================== *)
(** * Start-up with an unrecognised provider *)

(** C2 (as stated it fails). With [AI_PROVIDER=openai] (and no [PORT])
    the selector binds [PlaceholderService], whose constructor raises, and
    [main.py] ends the process with [os._exit(1)]: nothing is served, not
    even [/health]. *)
Lemma unknown_provider_process_exits :
  Startup.boot Sample.int_ok [("AI_PROVIDER", "openai")]%string = Startup.Exited 1 /\
  (forall name, Startup.boot Sample.int_ok [("AI_PROVIDER", "openai")]%string
                <> Startup.Serving name).
Proof. split; [reflexivity | intros name; discriminate]. Qed.

Lemma select_placeholder (e : Startup.Env) :
  let v := PyStr.lower (match Startup.env_get e "AI_PROVIDER" with
                        | Some v => v | None => "gemini" end)%string in
  (String.eqb v "grok" || String.eqb v "gemini" || String.eqb v "groq")%string = false ->
  Startup.select e = Ret (Startup.PlaceholderService v).
Proof.
  cbv zeta; intros H; unfold Startup.select.
  apply orb_false_elim in H as [H H3]; apply orb_false_elim in H as [H1 H2].
  now rewrite H1, H2, H3.
Qed.

Lemma settings_cases int_ok e :
  Startup.settings int_ok e = Ret tt \/ Startup.settings int_ok e = Throw ValidationError.
Proof.
  unfold Startup.settings.
  destruct (Startup.env_get _ _) as [p|]; [destruct (int_ok p)|]; auto.
Qed.

(** C2, amended. Whenever [AI_PROVIDER] (lower-cased, default [gemini]) is
    none of [grok], [gemini], [groq], the selector yields
    [PlaceholderService] and its constructor raises [ValueError]. The
    process never serves (not even [/health], and the placeholder's stub
    methods are never reached): when [Settings()] accepts the environment
    ([PORT] unset or a valid integer), [main.py] catches the [ValueError]
    and exits with status 1; otherwise [Settings()] has already failed at
    import with a [ValidationError]. *)
Theorem unknown_provider_exits (int_ok : string -> bool) (e : Startup.Env) :
  let v := PyStr.lower (match Startup.env_get e "AI_PROVIDER" with
                        | Some v => v | None => "gemini" end)%string in
  (String.eqb v "grok" || String.eqb v "gemini" || String.eqb v "groq")%string = false ->
  Startup.select e = Ret (Startup.PlaceholderService v) /\
  Startup.construct e (Startup.PlaceholderService v) =
    Throw (ValueError ("Invalid AI_PROVIDER '" ++ v ++ "' set in environment."))%string /\
  (Startup.settings int_ok e = Ret tt -> Startup.boot int_ok e = Startup.Exited 1) /\
  (Startup.settings int_ok e = Throw ValidationError ->
   Startup.boot int_ok e = Startup.ImportFailed ValidationError) /\
  (forall name, Startup.boot int_ok e <> Startup.Serving name).
Proof.
  intros v H; pose proof (select_placeholder e H) as Hs; fold v in Hs.
  split; [exact Hs | split; [reflexivity|]].
  unfold Startup.boot; rewrite Hs.
  split; [intros ->; reflexivity|]; split; [intros ->; reflexivity|].
  intros name; destruct (settings_cases int_ok e) as [-> | ->]; discriminate.
Qed.

Lemma unknown_provider_exits_witness :
  Startup.select [("AI_PROVIDER", "OpenAI"); ("port", "8001")]%string =
    Ret (Startup.PlaceholderService "openai") /\
  Startup.settings Sample.int_ok [("AI_PROVIDER", "OpenAI"); ("port", "8001")]%string
    = Ret tt /\
  Startup.boot Sample.int_ok [("AI_PROVIDER", "OpenAI"); ("port", "8001")]%string
    = Startup.Exited 1.
Proof.
  assert (Hset : Startup.settings Sample.int_ok
                   [("AI_PROVIDER", "OpenAI"); ("port", "8001")]%string = Ret tt)
    by (vm_compute; reflexivity).
  pose proof (unknown_provider_exits Sample.int_ok
                [("AI_PROVIDER", "OpenAI"); ("port", "8001")]%string
                eq_refl) as (Hs & _ & Hb & _).
  split; [exact Hs | split; [exact Hset | exact (Hb Hset)]].
Defined.

(* ================================================================== *)
(** * Intent classification *)

Lemma groq_classify_closed L o input s :
  Groq.classify_intent L o input s =
    (Ret (intent_in L groq_reply_text (o (calls s))),
     {| calls := S (calls s); log := log s ++ [ECall KClassify (PText input)] |}).
Proof.
  unfold Groq.classify_intent, intent_in, groq_reply_text, Groq.first_message,
    Groq.loads_content, intent_of, py_get, json_loads, try_except, bind, backend,
    lift, ret, raise.
  destruct (o (calls s)) as [r|e]; cbn; [|reflexivity].
  destruct (Groq.choices r) as [|m ms]; cbn; [reflexivity|].
  destruct (Groq.msg_content m) as [t|]; cbn; [|reflexivity].
  destruct (loads L t) as [[| | | | |kv]|]; cbn; try reflexivity.
  destruct (obj_get kv "intent") as [[| | | | |]|]; reflexivity.
Qed.

Lemma grok_classify_closed L o input s :
  Grok.classify_intent L o input s =
    (Ret (intent_in L grok_reply_text (o (calls s))),
     {| calls := S (calls s); log := log s ++ [ECall KClassify (PText input)] |}).
Proof.
  unfold Grok.classify_intent, intent_in, grok_reply_text, intent_of, py_get,
    json_loads, try_except, bind, backend, lift, ret, raise.
  destruct (o (calls s)) as [r|e]; cbn; [|reflexivity].
  destruct (Grok.clean (Grok.x_content r)) as [t|e]; cbn; [|reflexivity].
  destruct (loads L t) as [[| | | | |kv]|]; cbn; try reflexivity.
  destruct (obj_get kv "intent") as [[| | | | |]|]; reflexivity.
Qed.

Lemma gemini_attempt_intent L r :
  intent_in L gemini_reply_text r =
    match gemini_attempt L r with Ret i => i | Throw _ => "OTHER"%string end.
Proof.
  unfold intent_in, gemini_attempt, gemini_reply_text, Gemini.loads_text,
    json_loads, intent_of, py_get, bindr.
  destruct r as [r|e]; [|reflexivity].
  destruct (Gemini.text r) as [t|]; [|reflexivity].
  destruct (loads L t) as [[| | | | |kv]|]; try reflexivity.
  destruct (obj_get kv "intent") as [[| | | | |]|]; reflexivity.
Qed.

Lemma gemini_classify_closed L o input s :
  Gemini.classify_intent L o input s =
  match gemini_attempt L (o (calls s)) with
  | Ret i => (Ret i, {| calls := S (calls s);
                        log := log s ++ [ECall KClassify (PText input)] |})
  | Throw _ =>
      (Ret (match gemini_attempt L (o (S (calls s))) with
            | Ret i => i
            | Throw _ => "OTHER"%string
            end),
       {| calls := S (S (calls s));
          log := log s ++ [ECall KClassify (PText input); ESleep 1;
                           ECall KClassify (PText input)] |})
  end.
Proof.
  unfold Gemini.classify_intent, gemini_attempt, bindr; cbn [for_range].
  unfold try_except, bind, backend, lift, ret, raise, sleep, emit; cbn.
  destruct (o (calls s)) as [r|e]; cbn;
    [destruct (Gemini.loads_text L r) as [d|]; cbn; [destruct (intent_of d); cbn|]|];
    try reflexivity;
    (destruct (o (S (calls s))) as [r2|e2]; cbn;
     [destruct (Gemini.loads_text L r2) as [d2|]; cbn; [destruct (intent_of d2); cbn|]|]);
    now rewrite <- !app_assoc.
Qed.

(** C7 (as stated it fails). Groq's classifier, given the completion
    [{"intent": "buy"}], returns ["BUY"], which is none of the five
    categories. *)
Lemma classify_returns_unknown_token :
  let L := Sample.lib [(Sample.intent_doc "buy", JObj [("intent", JStr "buy")])]%string in
  let o := Sample.script [Ret (Sample.groq_reply (Some (Sample.intent_doc "buy")))] in
  fst (run (Groq.classify_intent L o "I want to buy AAPL")) = Ret "BUY"%string /\
  existsb (String.eqb "BUY") intent_categories = false.
Proof. split; vm_compute; reflexivity. Qed.

(** C7, amended. In every adapter [classify_intent] never raises and
    returns the intent of its own classification completion ([intent_in]):
    the upper-cased ["intent"] string of the JSON object in the
    completion's text, unchecked against the five categories, and exactly
    ["OTHER"] when the call raises, the text is missing or is not JSON,
    the JSON is not an object, or its ["intent"] is missing or not a
    string. Groq and Grok make one call. Gemini keeps the first attempt's
    intent when that attempt succeeds; otherwise it sleeps 1 s and the
    result is the intent of the second call's completion. *)
Theorem classify_intent_result (L : Lib) (input : string) :
  (forall o s,
     Gemini.classify_intent L o input s =
     if succeeded (gemini_attempt L (o (calls s)))
     then (Ret (intent_in L gemini_reply_text (o (calls s))),
           {| calls := S (calls s); log := log s ++ [ECall KClassify (PText input)] |})
     else (Ret (intent_in L gemini_reply_text (o (S (calls s)))),
           {| calls := S (S (calls s));
              log := log s ++ [ECall KClassify (PText input); ESleep 1;
                               ECall KClassify (PText input)] |})) /\
  (forall o s,
     Groq.classify_intent L o input s =
     (Ret (intent_in L groq_reply_text (o (calls s))),
      {| calls := S (calls s); log := log s ++ [ECall KClassify (PText input)] |})) /\
  (forall o s,
     Grok.classify_intent L o input s =
     (Ret (intent_in L grok_reply_text (o (calls s))),
      {| calls := S (calls s); log := log s ++ [ECall KClassify (PText input)] |})).
Proof.
  split; [|split]; intros o s.
  - rewrite gemini_classify_closed, !gemini_attempt_intent.
    destruct (gemini_attempt L (o (calls s))); reflexivity.
  - apply groq_classify_closed.
  - apply grok_classify_closed.
Qed.

Lemma extract_gated_by_intent_witness :
  let L := Sample.lib [(Sample.intent_doc "NEWS_MARKET",
                        JObj [("intent", JStr "NEWS_MARKET")])]%string in
  let o := Sample.script [Ret (Sample.groq_reply (Some (Sample.intent_doc "NEWS_MARKET")))] in
  fst (run (Groq.classify_intent L o "What is the news for TSLA?")) <>
    Ret "LOG_TRADE"%string /\
  fst (run (Groq.extract_trade_from_text L o "What is the news for TSLA?")) = Ret None.
Proof.
  intros L o.
  assert (H : fst (run (Groq.classify_intent L o "What is the news for TSLA?")) <>
                Ret "LOG_TRADE"%string) by (vm_compute; discriminate).
  split; [exact H|].
  exact (proj1 (proj2 (proj1 (proj2 (extract_gated_by_intent L
           "What is the news for TSLA?")) o) H)).
Defined.

(* ================================================================== *)
(** * Validation of a trade record *)

Ltac cases_in H :=
  repeat match type of H with
         | context [match ?x with _ => _ end] =>
             lazymatch x with
             | context [match _ with _ => _ end] => fail
             | _ => destruct x eqn:?
             end
         end.

Lemma validate_quantity L c tr :
  model_validate_json L c = Ret tr ->
  exists kv v, loads L c = Some (JObj kv) /\ obj_get kv "quantity" = Some v /\
               as_float L v = Some (quantity tr).
Proof.
  unfold model_validate_json, validate_trade, req_field; intros H.
  destruct (loads L c) as [[| | | | |kv]|]; try discriminate.
  exists kv.
  destruct (obj_get kv "quantity") as [v|] eqn:Hq.
  2: { cases_in H; discriminate. }
  exists v; split; [reflexivity | split; [reflexivity|]].
  cases_in H; try discriminate.
  injection H as <-; cbn; first [assumption | reflexivity].
Qed.

Lemma validate_missing_quantity L c kv :
  loads L c = Some (JObj kv) -> obj_get kv "quantity" = None ->
  model_validate_json L c = Throw ValidationError.
Proof.
  intros Hl Hq; unfold model_validate_json, validate_trade, req_field.
  rewrite Hl, Hq.
  repeat (match goal with |- context [match ?x with _ => _ end] =>
            destruct x end); reflexivity.
Qed.

(* ================================================================== *)
(** * Retries *)

Ltac norm_calls :=
  repeat rewrite ?Nat.add_0_r, ?Nat.add_succ_r in *.

Section RetryLoop.
Context {R A : Type} (o : nat -> Result R) (k : CallKind) (p : Payload)
  (fb : A) (cont : R -> M (Step A)).
Hypothesis Hcont : cont_ok cont.

Lemma retry_body_step j s :
  (is_503 (o (calls s)) /\ j < 2 /\
   retry_body o k p fb cont j s =
     (Ret Next, {| calls := S (calls s);
                   log := (log s ++ [ECall k p]) ++ [ESleep (2 ^ j)] |})) \/
  (exists a,
   retry_body o k p fb cont j s =
     (Ret (Done a), {| calls := S (calls s); log := log s ++ [ECall k p] |}) /\
   ~ (is_503 (o (calls s)) /\ j < 2) /\
   (forall e, o (calls s) = Throw e -> a = fb)).
Proof.
  unfold retry_body, try_except, bind, backend.
  destruct (o (calls s)) as [r|e] eqn:Ho.
  - destruct (Hcont r {| calls := S (calls s); log := log s ++ [ECall k p] |})
      as [[a Ha] | [e [He Hne]]]; rewrite ?Ha, ?He.
    + right; exists a; split; [reflexivity|].
      split; [intros [[msg [H _]] _]; discriminate | intros e H; discriminate].
    + right; exists fb.
      destruct e; try (exfalso; eapply Hne; reflexivity);
        (split; [reflexivity|]);
        (split; [intros [[msg [H _]] _]; discriminate | intros; reflexivity]).
  - destruct e as [msg| | | | | | | | |];
      try (right; exists fb; split; [reflexivity|];
           split; [intros [[msg' [H _]] _]; discriminate | intros; reflexivity]).
    destruct (PyStr.contains "503" msg) eqn:Hc; cbn; [destruct (j <=? 1) eqn:Hj|].
    + left; split; [exists msg; auto|].
      split; [apply Nat.leb_le in Hj; lia | reflexivity].
    + right; exists fb; split; [reflexivity|].
      split; [|intros; reflexivity].
      intros [_ Hj']; apply Nat.leb_nle in Hj; lia.
    + right; exists fb; split; [reflexivity|].
      split; [|intros; reflexivity].
      intros [[msg' [H H']] _]; injection H as <-; congruence.
Qed.

Lemma retry_loop_policy :
  retry_policy o (ECall k p) fb (for_range 3 0 (retry_body o k p fb cont) (ret fb)).
Proof.
  intros s; unfold retry_run; cbn [for_range]; unfold bind.
  destruct (retry_body_step 0 s) as [[H0 [_ E0]] | [a [E0 [Hn Hfb]]]];
    rewrite E0.
  - unfold bind.
    lazymatch goal with |- context [retry_body o k p fb cont 1 ?s1] =>
      destruct (retry_body_step 1 s1) as [[H1 [_ E1]] | [a [E1 [Hn Hfb]]]];
      rewrite E1; cbn [calls log] in * end.
    + unfold bind.
      lazymatch goal with |- context [retry_body o k p fb cont 2 ?s2] =>
        destruct (retry_body_step 2 s2) as [[_ [H2 _]] | [a [E2 [Hn Hfb]]]];
        [lia|]; rewrite E2; cbn [calls log] in * end.
      exists a, 3; cbn.
      split; [reflexivity|]. split; [lia|]. split; [lia|].
      split; [rewrite <- !app_assoc; reflexivity|].
      split; [|split].
      * intros i Hi; destruct i as [|[|i]]; [| |lia]; norm_calls; assumption.
      * intros i Hi Hi2 _; lia.
      * intros e He; norm_calls; exact (Hfb e He).
    + exists a, 2; cbn.
      split; [reflexivity|]. split; [lia|]. split; [lia|].
      split; [rewrite <- !app_assoc; reflexivity|].
      split; [|split].
      * intros i Hi; destruct i as [|i]; [|lia]; norm_calls; assumption.
      * intros i Hi Hi2 H; destruct i as [|[|i]]; [lia| |lia].
        norm_calls; exfalso; apply Hn; split; [exact H|lia].
      * intros e He; norm_calls; exact (Hfb e He).
  - exists a, 1; cbn.
    split; [reflexivity|]. split; [lia|]. split; [lia|].
    split; [reflexivity|].
    split; [|split].
    + intros i Hi; lia.
    + intros i Hi Hi2 H; destruct i as [|i]; [|lia].
      norm_calls; exfalso; apply Hn; split; [exact H|lia].
    + intros e He; norm_calls; exact (Hfb e He).
Qed.

Lemma retry_body_done j s a s' :
  retry_body o k p fb cont j s = (Ret (Done a), s') ->
  last_result o cont fb (calls s) a.
Proof.
  unfold retry_body, last_result, try_except, bind, backend; intros Heq.
  destruct (o (calls s)) as [r|e] eqn:Ho.
  - set (s1 := {| calls := S (calls s); log := log s ++ [ECall k p] |}) in *.
    exists s1.
    destruct (Hcont r s1) as [[a' Ha] | [e [He Hne]]]; rewrite ?Ha, ?He in *.
    + inversion Heq; subst; left; reflexivity.
    + right; split; [exists e; reflexivity|].
      destruct e; try (exfalso; eapply Hne; reflexivity);
        cbn in Heq; inversion Heq; subst; reflexivity.
  - destruct e as [msg| | | | | | | | |];
      try (cbn in Heq; inversion Heq; subst; reflexivity).
    destruct (PyStr.contains "503" msg); cbn in Heq; [destruct (j <=? 1)|];
      cbn in Heq; inversion Heq; subst; reflexivity.
Qed.

Lemma retry_loop_last s :
  exists a n,
    fst (for_range 3 0 (retry_body o k p fb cont) (ret fb) s) = Ret a /\
    calls (snd (for_range 3 0 (retry_body o k p fb cont) (ret fb) s)) = calls s + n /\
    1 <= n <= 3 /\
    last_result o cont fb (calls s + (n - 1)) a.
Proof.
  cbn [for_range]; unfold bind.
  destruct (retry_body_step 0 s) as [[H0 [_ E0]] | [a [E0 _]]];
    rewrite E0.
  - lazymatch goal with |- context [retry_body o k p fb cont 1 ?s1] =>
      destruct (retry_body_step 1 s1) as [[H1 [_ E1]] | [a [E1 _]]];
      rewrite E1 end.
    + lazymatch goal with |- context [retry_body o k p fb cont 2 ?s2] =>
        destruct (retry_body_step 2 s2) as [[_ [H2 _]] | [a [E2 _]]];
        [lia|]; rewrite E2 end.
      exists a, 3; cbn; split; [reflexivity|]. split; [lia|]. split; [lia|].
      apply retry_body_done in E2; cbn in E2; norm_calls; exact E2.
    + exists a, 2; cbn; split; [reflexivity|]. split; [lia|]. split; [lia|].
      apply retry_body_done in E1; cbn in E1; norm_calls; exact E1.
  - exists a, 1; cbn; split; [reflexivity|]. split; [lia|]. split; [lia|].
    apply retry_body_done in E0; norm_calls; exact E0.
Qed.

End RetryLoop.

Lemma validate_no_api_error L c msg :
  model_validate_json L c <> Throw (APIError msg).
Proof.
  unfold model_validate_json, validate_trade; intros H.
  cases_in H; discriminate.
Qed.

Lemma message_text_no_api_error r msg :
  Gemini.message_text r <> Throw (APIError msg).
Proof.
  unfold Gemini.message_text, Gemini.parts_or_safety; intros H.
  cases_in H; discriminate.
Qed.

Lemma gemini_extract_retry L o input :
  retry_policy o (ECall KExtract (PText input)) None (Gemini.extract_loop L o input).
Proof.
  unfold Gemini.extract_loop, Gemini.extract_attempt.
  eapply retry_loop_policy.
  intros r s; cbn.
  destruct (Gemini.text r) as [t|]; [destruct (_ && _)|]; cbn.
  - unfold bind, lift, ret, raise.
    destruct (model_validate_json L t) eqn:E.
    + left; eexists; reflexivity.
    + right; eexists; split; [reflexivity|].
      intros msg ->; exact (validate_no_api_error _ _ _ E).
  - left; eexists; reflexivity.
  - left; eexists; reflexivity.
Qed.

Lemma once_try {R A} (o : nat -> Result R) k p (fb : A) (rest : R -> M A) :
  (forall r, emits (no_retry (ECall k p)) (rest r)) ->
  once o (ECall k p) fb (try_except (bind (backend o k p) rest) (fun _ => ret fb)).
Proof.
  intros He s; unfold once_run, try_except, bind, backend.
  destruct (o (calls s)) as [r|e] eqn:Ho.
  - destruct (He r {| calls := S (calls s); log := log s ++ [ECall k p] |})
      as (sfx & Hl & HF).
    destruct (rest r _) as [[a|e] s''] eqn:E; cbn in Hl |- *;
      (eexists; split; [reflexivity|]);
      (split; [exists sfx; rewrite Hl, <- app_assoc; split; [reflexivity|exact HF]
              | intros e' H; discriminate]).
  - exists fb; cbn; split; [reflexivity|].
    split; [exists []; split; [reflexivity | constructor] | intros; split; reflexivity].
Qed.

Lemma gemini_extract_total L o input :
  total (Gemini.extract_trade_from_text L o input).
Proof.
  unfold Gemini.extract_trade_from_text.
  apply total_bind; [apply gemini_classify_total|intros i].
  destruct (String.eqb i "LOG_TRADE"); [|apply total_ret].
  intros s; destruct (gemini_extract_retry L o input s) as (a & k & H & _).
  exists a, (snd (Gemini.extract_loop L o input s)).
  rewrite <- H; destruct (Gemini.extract_loop L o input s); reflexivity.
Qed.

Lemma groq_extract_total L o input :
  total (Groq.extract_trade_from_text L o input).
Proof. unfold Groq.extract_trade_from_text, Groq.classify_intent; monad_auto. Qed.

Lemma grok_extract_total L o input :
  total (Grok.extract_trade_from_text L o input).
Proof. unfold Grok.extract_trade_from_text, Grok.classify_intent; monad_auto. Qed.

Lemma retry_loop_outcome {R A} (o : nat -> Result R) k p (fb : A)
  (cont : R -> M (Step A)) (value : R -> Result A) :
  (forall r s, cont r s =
     (match value r with Ret a => Ret (Done a) | Throw e => Throw e end, s)) ->
  (forall r msg, value r <> Throw (APIError msg)) ->
  forall s, retry_outcome o (ECall k p) fb value
              (for_range 3 0 (retry_body o k p fb cont) (ret fb) s) s.
Proof.
  intros Hv Hna.
  assert (Hok : cont_ok cont).
  { intros r s; rewrite Hv; destruct (value r) as [a|e] eqn:E; [left; eauto|right].
    exists e; split; [reflexivity|]. intros msg ->; exact (Hna r msg E). }
  intros s.
  destruct (retry_loop_policy o k p fb cont Hok s)
    as (a & k' & E1 & Hk & Hc & Hl & H503 & Hmore & _).
  destruct (retry_loop_last o k p fb cont Hok s) as (a' & n & E1' & Hc' & Hn & Hlast).
  rewrite E1 in E1'; injection E1' as <-.
  assert (n = k') by lia; subst n.
  exists k'; split; [|split; [exact Hk | split; [exact Hc | split; [exact Hl|]]]];
    [|split; assumption].
  rewrite E1; f_equal.
  unfold last_result in Hlast; unfold or_fallback.
  destruct (o (calls s + (k' - 1))) as [r|e]; [|exact Hlast].
  destruct Hlast as (s' & [Hd | [(e & He) Ha]]); rewrite Hv in *.
  - destruct (value r); [injection Hd as ->; reflexivity | discriminate].
  - destruct (value r); [discriminate | exact Ha].
Qed.

Lemma gemini_extract_outcome L o input s s1 :
  Gemini.classify_intent L o input s = (Ret "LOG_TRADE"%string, s1) ->
  retry_outcome o (ECall KExtract (PText input)) None (gemini_extract_value L)
    (Gemini.extract_trade_from_text L o input s) s1.
Proof.
  intros Hc; unfold Gemini.extract_trade_from_text.
  unfold bind at 1; rewrite Hc; cbn -[Gemini.extract_loop].
  unfold Gemini.extract_loop, Gemini.extract_attempt.
  apply retry_loop_outcome.
  - intros r s'; cbn; unfold gemini_extract_value.
    destruct (Gemini.text r) as [t|]; [destruct (_ && _)|]; cbn; try reflexivity.
    unfold bind, lift, ret, raise, bindr.
    destruct (model_validate_json L t); reflexivity.
  - intros r msg; unfold gemini_extract_value.
    destruct (Gemini.text r) as [t|]; [destruct (_ && _)|]; try discriminate.
    unfold bindr; destruct (model_validate_json L t) eqn:E; [discriminate|].
    intros H; injection H as ->; exact (validate_no_api_error _ _ _ E).
Qed.

(** Gemini's chat is the retry loop over its attempt, whose [try] block
    after the call is [message_text] and the grounding flag. *)
Lemma gemini_chat_shape o user_message chat_history trade_history :
  exists cont,
    Gemini.generate_chat_response o user_message chat_history trade_history =
      for_range 3 0
        (retry_body o KChat
           (PMessages (lastn 6 chat_history ++
                       [{| role := "user"; content := user_message |}]))
           {| message := Some Gemini.fallback_msg; is_grounded := false |} cont)
        (ret {| message := Some Gemini.fallback_msg; is_grounded := false |}) /\
    cont_ok cont /\
    forall r s', cont r s' =
      match Gemini.message_text r with
      | Ret m => (Ret (Done {| message := Some m; is_grounded := Gemini.grounded r |}), s')
      | Throw e => (Throw e, s')
      end.
Proof.
  eexists; split; [reflexivity|].
  split; intros r s'; cbn; unfold bind, lift, ret, raise;
    destruct (Gemini.message_text r) eqn:E; eauto.
  right; eexists; split; [reflexivity|].
  intros msg ->; exact (message_text_no_api_error _ _ E).
Qed.

Lemma gemini_chat_outcome o user_message chat_history trade_history s :
  retry_outcome o
    (ECall KChat (PMessages (lastn 6 chat_history ++
                             [{| role := "user"; content := user_message |}])))
    {| message := Some Gemini.fallback_msg; is_grounded := false |}
    gemini_chat_value
    (Gemini.generate_chat_response o user_message chat_history trade_history s) s.
Proof.
  destruct (gemini_chat_shape o user_message chat_history trade_history)
    as (cont & Hshape & _ & Hc).
  rewrite Hshape; apply retry_loop_outcome.
  - intros r s'; rewrite Hc; unfold gemini_chat_value, bindr.
    destruct (Gemini.message_text r); reflexivity.
  - intros r msg; unfold gemini_chat_value, bindr.
    destruct (Gemini.message_text r) eqn:E; [discriminate|].
    intros H; injection H as ->; exact (message_text_no_api_error _ _ E).
Qed.

Lemma groq_extract_outcome L o input s s1 :
  Groq.classify_intent L o input s = (Ret "LOG_TRADE"%string, s1) ->
  once_outcome o (ECall KExtract (PText input)) None (groq_extract_value L)
    (Groq.extract_trade_from_text L o input s) s1.
Proof.
  intros Hc; unfold once_outcome, Groq.extract_trade_from_text.
  unfold bind at 1; rewrite Hc; cbn -[try_except bind backend].
  unfold try_except, bind, backend, or_fallback, groq_extract_value,
    Groq.first_message, bindr, lift, ret, raise.
  destruct (o (calls s1)) as [r|e]; cbn; [|reflexivity].
  destruct (Groq.choices r) as [|m ms]; cbn; [reflexivity|].
  destruct (Groq.msg_content m) as [c|]; cbn; [|reflexivity].
  destruct (_ && _); cbn; [reflexivity|].
  destruct (model_validate_json L c); reflexivity.
Qed.

Lemma grok_extract_outcome L o input s s1 :
  Grok.classify_intent L o input s = (Ret "LOG_TRADE"%string, s1) ->
  once_outcome o (ECall KExtract (PText input)) None (grok_extract_value L)
    (Grok.extract_trade_from_text L o input s) s1.
Proof.
  intros Hc; unfold once_outcome, Grok.extract_trade_from_text.
  unfold bind at 1; rewrite Hc; cbn -[try_except bind backend].
  unfold try_except, bind, backend, or_fallback, grok_extract_value, bindr,
    lift, ret, raise.
  destruct (o (calls s1)) as [r|e]; cbn; [|reflexivity].
  destruct (Grok.clean (Grok.x_content r)) as [c|e]; cbn; [|reflexivity].
  destruct (negb _); cbn; [|reflexivity].
  destruct (model_validate_json L c); reflexivity.
Qed.

Lemma tool_turns_calls L tcs s :
  exists rs s', tool_turns L tcs s = (Ret rs, s') /\ calls s' = calls s.
Proof.
  revert s; induction tcs as [|tc tcs IH]; intros s; cbn [tool_turns].
  - exists [], s; split; reflexivity.
  - unfold bind at 1.
    assert (Hhead : exists r s1,
      (if String.eqb (fn_name tc) "fetch_stock_news"
       then try_except
              (args <- lift (json_loads L (fn_arguments tc)) ;;
               q <- lift (subscript_query args) ;;
               emit (ELookup q) ;;;
               news <- lift (fetch_stock_news L q) ;;
               ret [news])
              (fun tool_err => ret [tool_error_json tool_err])
       else ret []) s = (Ret r, s1) /\ calls s1 = calls s).
    { destruct (String.eqb _ _); [|now exists [], s].
      unfold try_except, bind, lift, emit, ret, raise.
      destruct (json_loads L (fn_arguments tc)) as [args|]; cbn; [|eauto].
      destruct (subscript_query args) as [q|]; cbn; [|eauto].
      destruct (fetch_stock_news L q); cbn; eauto. }
    destruct Hhead as (r & s1 & E1 & C1); rewrite E1.
    destruct (IH s1) as (rs & s2 & E2 & C2).
    unfold bind; rewrite E2.
    exists (r ++ rs), s2; split; [reflexivity | congruence].
Qed.

Lemma groq_chat_result L o user_message chat_history trade_history s :
  fst (Groq.generate_chat_response L o user_message chat_history trade_history s) =
    Ret (groq_chat_reply (o (calls s)) (o (S (calls s)))).
Proof.
  unfold Groq.generate_chat_response, groq_chat_reply, try_except, bind, backend,
    lift, Groq.first_message, bindr, ret, raise.
  destruct (o (calls s)) as [r|e] eqn:Ho; cbn -[tool_turns]; [|reflexivity].
  destruct (Groq.choices r) as [|m ms]; cbn -[tool_turns]; [reflexivity|].
  destruct (Groq.tool_calls m) as [[|tc tcs]|]; cbn -[tool_turns]; try reflexivity.
  lazymatch goal with |- context [tool_turns L (tc :: tcs) ?s1] =>
    destruct (tool_turns_calls L (tc :: tcs) s1) as (rs & s2 & E & C) end.
  rewrite E; cbn in C; rewrite C.
  destruct (o (S (calls s))) as [r2|e2]; cbn -[tool_turns]; [|reflexivity].
  destruct (Groq.choices r2); reflexivity.
Qed.

Lemma grok_chat_result L o user_message chat_history trade_history s :
  fst (Grok.generate_chat_response L o user_message chat_history trade_history s) =
    Ret (grok_chat_reply (o (calls s)) (o (S (calls s)))).
Proof.
  unfold Grok.generate_chat_response, grok_chat_reply, try_except, bind, backend,
    lift, ret, raise.
  destruct (o (calls s)) as [r|e] eqn:Ho; cbn -[tool_turns]; [|reflexivity].
  destruct (Grok.x_tool_calls r) as [|tc tcs]; cbn -[tool_turns]; [reflexivity|].
  lazymatch goal with |- context [tool_turns L (tc :: tcs) ?s1] =>
    destruct (tool_turns_calls L (tc :: tcs) s1) as (rs & s2 & E & C) end.
  rewrite E; cbn in C; rewrite C.
  destruct (o (S (calls s))); reflexivity.
Qed.

Lemma groq_chat_once L o user_message chat_history trade_history :
  once o
    (ECall KChat (PMessages (lastn 6 chat_history ++
                             [{| role := "user"; content := user_message |}])))
    {| message := Some Groq.unavailable_msg; is_grounded := false |}
    (Groq.generate_chat_response L o user_message chat_history trade_history).
Proof.
  unfold Groq.generate_chat_response; apply once_try; intros r; monad_auto;
    apply emits_tool_turns; intros q; discriminate.
Qed.

Lemma grok_chat_once L o user_message chat_history trade_history :
  once o
    (ECall KChat (PMessages (lastn 6 chat_history ++
                             [{| role := "user"; content := user_message |}])))
    {| message := Some Grok.unavailable_msg; is_grounded := false |}
    (Grok.generate_chat_response L o user_message chat_history trade_history).
Proof.
  unfold Grok.generate_chat_response; apply once_try; intros r; monad_auto;
    apply emits_tool_turns; intros q; discriminate.
Qed.

(** C4 (as stated it fails for Groq and Grok). The Groq adapter, whose
    extraction call fails with a 503 error of the SDK, makes no second
    attempt and does not sleep: it returns [None] after two calls, the
    classification and the single extraction attempt. *)
Lemma groq_extract_no_retry_on_503 :
  run (Groq.extract_trade_from_text Sample.trade_lib
         (Sample.script [Ret (Sample.groq_reply (Some (Sample.intent_doc "LOG_TRADE")));
                         Throw (SDKError "Error code: 503 - Service Unavailable")])
         "Bought TSLA at 200")%string =
  (Ret None, {| calls := 2;
                log := [ECall KClassify (PText "Bought TSLA at 200");
                        ECall KExtract (PText "Bought TSLA at 200")]%string |}).
Proof. vm_compute; reflexivity. Qed.

(** C4, amended. Only the Gemini adapter retries. Its classification
    makes up to 2 attempts with a sleep of 1 s after any failure of the
    first. Its extraction (after a [LOG_TRADE] classification) and its
    chat make 1 to 3 attempts ([retry_outcome]): a 503 [APIError] of
    attempt 0 or 1 is followed by a sleep of [2 ^ attempt] seconds (1 s,
    then 2 s) and another attempt, every attempt but the last failed that
    way, and the result is computed from the last attempt's completion,
    or is [None] / the overload message when that attempt's call or the
    reading of its completion raised. The Groq and Grok adapters make a
    single extraction call ([once_outcome]), whose failure (of the call or
    of the reading of its completion) gives [None], and a chat with no
    sleep and no second chat call, whose reply is the unavailable message
    on any failure. No adapter's [extract_trade_from_text] or
    [generate_chat_response] raises. *)
Theorem retry_only_in_gemini (L : Lib) (input : string) :
  (forall o : nat -> Result Gemini.Response,
     (forall s,
        Gemini.classify_intent L o input s =
        match gemini_attempt L (o (calls s)) with
        | Ret i => (Ret i, {| calls := S (calls s);
                              log := log s ++ [ECall KClassify (PText input)] |})
        | Throw _ =>
            (Ret (match gemini_attempt L (o (S (calls s))) with
                  | Ret i => i
                  | Throw _ => "OTHER"%string
                  end),
             {| calls := S (S (calls s));
                log := log s ++ [ECall KClassify (PText input); ESleep 1;
                                 ECall KClassify (PText input)] |})
        end) /\
     total (Gemini.extract_trade_from_text L o input) /\
     (forall s s1,
        Gemini.classify_intent L o input s = (Ret "LOG_TRADE"%string, s1) ->
        retry_outcome o (ECall KExtract (PText input)) None (gemini_extract_value L)
          (Gemini.extract_trade_from_text L o input s) s1) /\
     (forall user_message chat_history trade_history s,
        retry_outcome o
          (ECall KChat (PMessages (lastn 6 chat_history ++
                                   [{| role := "user"; content := user_message |}])))
          {| message := Some Gemini.fallback_msg; is_grounded := false |}
          gemini_chat_value
          (Gemini.generate_chat_response o user_message chat_history trade_history s) s)) /\
  (forall o : nat -> Result Groq.Response,
     total (Groq.extract_trade_from_text L o input) /\
     (forall s s1,
        Groq.classify_intent L o input s = (Ret "LOG_TRADE"%string, s1) ->
        once_outcome o (ECall KExtract (PText input)) None (groq_extract_value L)
          (Groq.extract_trade_from_text L o input s) s1) /\
     (forall user_message chat_history trade_history,
        once o
          (ECall KChat (PMessages (lastn 6 chat_history ++
                                   [{| role := "user"; content := user_message |}])))
          {| message := Some Groq.unavailable_msg; is_grounded := false |}
          (Groq.generate_chat_response L o user_message chat_history trade_history) /\
        forall s,
          fst (Groq.generate_chat_response L o user_message chat_history trade_history s) =
            Ret (groq_chat_reply (o (calls s)) (o (S (calls s)))))) /\
  (forall o : nat -> Result Grok.Response,
     total (Grok.extract_trade_from_text L o input) /\
     (forall s s1,
        Grok.classify_intent L o input s = (Ret "LOG_TRADE"%string, s1) ->
        once_outcome o (ECall KExtract (PText input)) None (grok_extract_value L)
          (Grok.extract_trade_from_text L o input s) s1) /\
     (forall user_message chat_history trade_history,
        once o
          (ECall KChat (PMessages (lastn 6 chat_history ++
                                   [{| role := "user"; content := user_message |}])))
          {| message := Some Grok.unavailable_msg; is_grounded := false |}
          (Grok.generate_chat_response L o user_message chat_history trade_history) /\
        forall s,
          fst (Grok.generate_chat_response L o user_message chat_history trade_history s) =
            Ret (grok_chat_reply (o (calls s)) (o (S (calls s)))))).
Proof.
  split; [|split]; intros o.
  - split; [|split; [|split]].
    + intros s; apply gemini_classify_closed.
    + apply gemini_extract_total.
    + intros s s1; apply gemini_extract_outcome.
    + intros; apply gemini_chat_outcome.
  - split; [|split].
    + apply groq_extract_total.
    + intros s s1; apply groq_extract_outcome.
    + intros; split; [apply groq_chat_once | intros; apply groq_chat_result].
  - split; [|split].
    + apply grok_extract_total.
    + intros s s1; apply grok_extract_outcome.
    + intros; split; [apply grok_chat_once | intros; apply grok_chat_result].
Qed.

Lemma retry_only_in_gemini_witness :
  let o := Sample.script [Ret (Sample.groq_reply (Some (Sample.intent_doc "LOG_TRADE")));
                          Throw (SDKError "Error code: 503 - Service Unavailable")] in
  Groq.classify_intent Sample.trade_lib o "Bought TSLA at 200"%string st0 =
    (Ret "LOG_TRADE"%string,
     {| calls := 1; log := [ECall KClassify (PText "Bought TSLA at 200")]%string |}) /\
  once_outcome o (ECall KExtract (PText "Bought TSLA at 200")) None
    (groq_extract_value Sample.trade_lib)
    (Groq.extract_trade_from_text Sample.trade_lib o "Bought TSLA at 200"%string st0)
    {| calls := 1; log := [ECall KClassify (PText "Bought TSLA at 200")]%string |}.
Proof.
  intros o.
  assert (H : Groq.classify_intent Sample.trade_lib o "Bought TSLA at 200"%string st0 =
    (Ret "LOG_TRADE"%string,
     {| calls := 1; log := [ECall KClassify (PText "Bought TSLA at 200")]%string |}))
    by (vm_compute; reflexivity).
  split; [exact H|].
  exact (proj1 (proj2 (proj1 (proj2 (retry_only_in_gemini Sample.trade_lib
           "Bought TSLA at 200"%string)) o)) st0 _ H).
Defined.

(* ================================================================== *)
(** * The quantity of an extracted trade *)

Lemma gemini_value_quantity L r tr :
  gemini_extract_value L r = Ret (Some tr) -> quantity_in L gemini_reply_text r tr.
Proof.
  unfold quantity_in, gemini_extract_value, gemini_reply_text, bindr.
  destruct (Gemini.text r) as [c|]; [|discriminate].
  destruct (_ && _); [|discriminate].
  destruct (model_validate_json L c) as [tr'|] eqn:E; [|discriminate].
  intros H; inversion H; subst tr'.
  destruct (validate_quantity L c tr E) as (kv & v & H1 & H2 & H3).
  exists c, kv, v; auto.
Qed.

Lemma groq_value_quantity L r tr :
  groq_extract_value L r = Ret (Some tr) -> quantity_in L groq_reply_text r tr.
Proof.
  unfold quantity_in, groq_extract_value, groq_reply_text, Groq.first_message, bindr.
  destruct (Groq.choices r) as [|m ms]; [discriminate|].
  destruct (Groq.msg_content m) as [c|]; [|discriminate].
  destruct (_ && _); [discriminate|].
  destruct (model_validate_json L c) as [tr'|] eqn:E; [|discriminate].
  intros H; inversion H; subst tr'.
  destruct (validate_quantity L c tr E) as (kv & v & H1 & H2 & H3).
  exists c, kv, v; auto.
Qed.

Lemma grok_value_quantity L r tr :
  grok_extract_value L r = Ret (Some tr) -> quantity_in L grok_reply_text r tr.
Proof.
  unfold quantity_in, grok_extract_value, grok_reply_text, bindr.
  destruct (Grok.clean (Grok.x_content r)) as [c|e]; [|discriminate].
  destruct (negb _); [|discriminate].
  destruct (model_validate_json L c) as [tr'|] eqn:E; [|discriminate].
  intros H; inversion H; subst tr'.
  destruct (validate_quantity L c tr E) as (kv & v & H1 & H2 & H3).
  exists c, kv, v; auto.
Qed.

Lemma gemini_value_lacks L r :
  lacks_quantity L gemini_reply_text r ->
  or_fallback (gemini_extract_value L) None (Ret r) = None.
Proof.
  intros (c & kv & Hc & Hl & Hq).
  unfold or_fallback, gemini_extract_value, bindr; unfold gemini_reply_text in Hc.
  rewrite Hc; destruct (_ && _); [|reflexivity].
  rewrite (validate_missing_quantity L c kv Hl Hq); reflexivity.
Qed.

Lemma groq_value_lacks L r :
  lacks_quantity L groq_reply_text r ->
  or_fallback (groq_extract_value L) None (Ret r) = None.
Proof.
  intros (c & kv & Hc & Hl & Hq).
  unfold or_fallback, groq_extract_value, Groq.first_message, bindr.
  unfold groq_reply_text in Hc.
  destruct (Groq.choices r) as [|m ms]; [discriminate|].
  rewrite Hc; destruct (_ && _); [reflexivity|].
  rewrite (validate_missing_quantity L c kv Hl Hq); reflexivity.
Qed.

Lemma grok_value_lacks L r :
  lacks_quantity L grok_reply_text r ->
  or_fallback (grok_extract_value L) None (Ret r) = None.
Proof.
  intros (c & kv & Hc & Hl & Hq).
  unfold or_fallback, grok_extract_value, bindr; unfold grok_reply_text in Hc.
  destruct (Grok.clean (Grok.x_content r)) as [c'|e]; [|discriminate].
  injection Hc as ->; destruct (negb _); [|reflexivity].
  rewrite (validate_missing_quantity L c kv Hl Hq); reflexivity.
Qed.

(** An extraction that returns a record was classified [LOG_TRADE]. *)
Lemma gemini_extract_gate L o input s i s1 :
  Gemini.classify_intent L o input s = (Ret i, s1) -> i <> "LOG_TRADE"%string ->
  Gemini.extract_trade_from_text L o input s = (Ret None, s1).
Proof.
  intros Hc Hi; unfold Gemini.extract_trade_from_text, bind at 1; rewrite Hc.
  destruct (String.eqb_spec i "LOG_TRADE"); [contradiction | reflexivity].
Qed.

Lemma groq_extract_gate L o input s i s1 :
  Groq.classify_intent L o input s = (Ret i, s1) -> i <> "LOG_TRADE"%string ->
  Groq.extract_trade_from_text L o input s = (Ret None, s1).
Proof.
  intros Hc Hi; unfold Groq.extract_trade_from_text, bind at 1; rewrite Hc.
  destruct (String.eqb_spec i "LOG_TRADE"); [contradiction | reflexivity].
Qed.

Lemma grok_extract_gate L o input s i s1 :
  Grok.classify_intent L o input s = (Ret i, s1) -> i <> "LOG_TRADE"%string ->
  Grok.extract_trade_from_text L o input s = (Ret None, s1).
Proof.
  intros Hc Hi; unfold Grok.extract_trade_from_text, bind at 1; rewrite Hc.
  destruct (String.eqb_spec i "LOG_TRADE"); [contradiction | reflexivity].
Qed.

(** The value [Some tr] of an attempt comes from its completion. *)
Lemma or_fallback_some {R} (value : R -> Result (option TradeCreate)) r tr :
  or_fallback value None r = Some tr ->
  exists resp, r = Ret resp /\ value resp = Ret (Some tr).
Proof.
  unfold or_fallback; destruct r as [resp|e]; [|discriminate].
  destruct (value resp) as [a|e] eqn:E; [|discriminate].
  intros ->; eauto.
Qed.

(** In a retry loop, the attempt [j] that follows [j] failed attempts,
    all 503 errors, and whose call answered, is the last one. *)
Lemma retry_outcome_at {R A} (o : nat -> Result R) ev (fb : A) value res s j r :
  retry_outcome o ev fb value res s -> j < 3 ->
  (forall i, i < j -> is_503 (o (calls s + i))) ->
  o (calls s + j) = Ret r ->
  fst res = Ret (or_fallback value fb (Ret r)).
Proof.
  intros (k & E & Hk & _ & _ & H503 & Hmore) Hj Hb Hr.
  assert (Hjk : j < k).
  { destruct j as [|[|[|j]]]; [lia | | | lia].
    - apply (Hmore 0); [lia | lia | apply Hb; lia].
    - assert (1 < k) by (apply (Hmore 0); [lia | lia | apply Hb; lia]).
      apply (Hmore 1); [lia | lia | apply Hb; lia]. }
  assert (Hkj : k - 1 = j).
  { destruct (Nat.lt_ge_cases (j + 1) k) as [Hlt|]; [|lia].
    destruct (H503 j Hlt) as (msg & Hm & _); congruence. }
  rewrite E, Hkj, Hr; reflexivity.
Qed.

(** C3 (as stated it fails). Classified [LOG_TRADE], with an extraction
    completion that is a valid trade except that it omits ["quantity"],
    Groq's extractor returns [None]: no default of 1 is applied. With
    ["quantity": 10] the same completion gives a record. *)
Lemma extract_no_default_quantity :
  fst (run (Groq.extract_trade_from_text Sample.trade_lib
              (Sample.groq_trade_oracle false) "Bought TSLA at 200")) = Ret None /\
  exists tr,
    fst (run (Groq.extract_trade_from_text Sample.trade_lib
                (Sample.groq_trade_oracle true) "Bought TSLA at 200")) = Ret (Some tr) /\
    Qeq (quantity tr) (inject_Z 10).
Proof.
  split; [vm_compute; reflexivity|].
  eexists; split; [vm_compute; reflexivity | reflexivity].
Qed.

(** C3, amended. In every adapter, a record returned by
    [extract_trade_from_text] follows a [LOG_TRADE] classification, and
    its quantity is pydantic's coercion of the ["quantity"] field of the
    JSON object in the text of the extraction completion the record was
    validated from (Gemini: the last attempt's). The code applies no
    default: when that completion's object has no ["quantity"], the
    extractor returns [None] (Gemini: when it is the completion of the
    attempt that follows only 503 failures). *)
Theorem extracted_quantity_from_completion (L : Lib) (input : string) :
  (forall o s i s1 tr,
     Gemini.classify_intent L o input s = (Ret i, s1) ->
     fst (Gemini.extract_trade_from_text L o input s) = Ret (Some tr) ->
     i = "LOG_TRADE"%string /\
     exists k r, 1 <= k <= 3 /\
       log (snd (Gemini.extract_trade_from_text L o input s)) =
         log s1 ++ retry_events (ECall KExtract (PText input)) 0 k /\
       o (calls s1 + (k - 1)) = Ret r /\ quantity_in L gemini_reply_text r tr) /\
  (forall o s s1 j r,
     Gemini.classify_intent L o input s = (Ret "LOG_TRADE"%string, s1) -> j < 3 ->
     (forall i, i < j -> is_503 (o (calls s1 + i))) ->
     o (calls s1 + j) = Ret r -> lacks_quantity L gemini_reply_text r ->
     fst (Gemini.extract_trade_from_text L o input s) = Ret None) /\
  (forall o s i s1 tr,
     Groq.classify_intent L o input s = (Ret i, s1) ->
     fst (Groq.extract_trade_from_text L o input s) = Ret (Some tr) ->
     i = "LOG_TRADE"%string /\
     log (snd (Groq.extract_trade_from_text L o input s)) =
       log s1 ++ [ECall KExtract (PText input)] /\
     exists r, o (calls s1) = Ret r /\ quantity_in L groq_reply_text r tr) /\
  (forall o s s1 r,
     Groq.classify_intent L o input s = (Ret "LOG_TRADE"%string, s1) ->
     o (calls s1) = Ret r -> lacks_quantity L groq_reply_text r ->
     fst (Groq.extract_trade_from_text L o input s) = Ret None) /\
  (forall o s i s1 tr,
     Grok.classify_intent L o input s = (Ret i, s1) ->
     fst (Grok.extract_trade_from_text L o input s) = Ret (Some tr) ->
     i = "LOG_TRADE"%string /\
     log (snd (Grok.extract_trade_from_text L o input s)) =
       log s1 ++ [ECall KExtract (PText input)] /\
     exists r, o (calls s1) = Ret r /\ quantity_in L grok_reply_text r tr) /\
  (forall o s s1 r,
     Grok.classify_intent L o input s = (Ret "LOG_TRADE"%string, s1) ->
     o (calls s1) = Ret r -> lacks_quantity L grok_reply_text r ->
     fst (Grok.extract_trade_from_text L o input s) = Ret None).
Proof.
  split; [|split; [|split; [|split; [|split]]]].
  - intros o s i s1 tr Hc Hx.
    destruct (String.eqb_spec i "LOG_TRADE") as [->|Hi];
      [|rewrite (gemini_extract_gate L o input s i s1 Hc Hi) in Hx; discriminate].
    split; [reflexivity|].
    destruct (gemini_extract_outcome L o input s s1 Hc) as (k & E & Hk & _ & Hl & _).
    rewrite Hx in E; injection E as E; symmetry in E.
    destruct (or_fallback_some _ _ _ E) as (r & Hr & Hv).
    exists k, r; repeat split; try lia; [exact Hl | exact Hr |].
    exact (gemini_value_quantity L r tr Hv).
  - intros o s s1 j r Hc Hj Hb Hr Hq.
    rewrite (retry_outcome_at _ _ _ _ _ _ j r (gemini_extract_outcome L o input s s1 Hc)
               Hj Hb Hr).
    rewrite (gemini_value_lacks L r Hq); reflexivity.
  - intros o s i s1 tr Hc Hx.
    destruct (String.eqb_spec i "LOG_TRADE") as [->|Hi];
      [|rewrite (groq_extract_gate L o input s i s1 Hc Hi) in Hx; discriminate].
    split; [reflexivity|].
    pose proof (groq_extract_outcome L o input s s1 Hc) as E; unfold once_outcome in E.
    rewrite E in Hx |- *; cbn in Hx |- *; split; [reflexivity|].
    injection Hx as Hx.
    destruct (or_fallback_some _ _ _ Hx) as (r & Hr & Hv).
    exists r; split; [exact Hr | exact (groq_value_quantity L r tr Hv)].
  - intros o s s1 r Hc Hr Hq.
    pose proof (groq_extract_outcome L o input s s1 Hc) as E; unfold once_outcome in E.
    rewrite E, Hr; cbn [fst]; rewrite (groq_value_lacks L r Hq); reflexivity.
  - intros o s i s1 tr Hc Hx.
    destruct (String.eqb_spec i "LOG_TRADE") as [->|Hi];
      [|rewrite (grok_extract_gate L o input s i s1 Hc Hi) in Hx; discriminate].
    split; [reflexivity|].
    pose proof (grok_extract_outcome L o input s s1 Hc) as E; unfold once_outcome in E.
    rewrite E in Hx |- *; cbn in Hx |- *; split; [reflexivity|].
    injection Hx as Hx.
    destruct (or_fallback_some _ _ _ Hx) as (r & Hr & Hv).
    exists r; split; [exact Hr | exact (grok_value_quantity L r tr Hv)].
  - intros o s s1 r Hc Hr Hq.
    pose proof (grok_extract_outcome L o input s s1 Hc) as E; unfold once_outcome in E.
    rewrite E, Hr; cbn [fst]; rewrite (grok_value_lacks L r Hq); reflexivity.
Qed.

Lemma extracted_quantity_from_completion_witness :
  exists tr,
    fst (Groq.extract_trade_from_text Sample.trade_lib (Sample.groq_trade_oracle true)
           "Bought TSLA at 200"%string st0) = Ret (Some tr) /\
    (exists r, Sample.groq_trade_oracle true 1 = Ret r /\
               quantity_in Sample.trade_lib groq_reply_text r tr) /\
    fst (Groq.extract_trade_from_text Sample.trade_lib (Sample.groq_trade_oracle false)
           "Bought TSLA at 200"%string st0) = Ret None.
Proof.
  pose proof (extracted_quantity_from_completion Sample.trade_lib "Bought TSLA at 200"%string)
    as (_ & _ & Hq & Hn & _).
  assert (Hc : forall b, Groq.classify_intent Sample.trade_lib (Sample.groq_trade_oracle b)
                 "Bought TSLA at 200"%string st0 =
               (Ret "LOG_TRADE"%string,
                {| calls := 1; log := [ECall KClassify (PText "Bought TSLA at 200")]%string |}))
    by (intros []; vm_compute; reflexivity).
  assert (Hx : fst (Groq.extract_trade_from_text Sample.trade_lib
                      (Sample.groq_trade_oracle true) "Bought TSLA at 200"%string st0) =
               Ret (Some {| ticker := "TSLA"; entry_date := {| year := 2024; month := 5; day := 1 |};
                            entry_price := inject_Z 200; quantity := inject_Z 10;
                            exit_date := None; exit_price := None; notes := None |}%string))
    by (vm_compute; reflexivity).
  eexists; split; [exact Hx | split].
  - destruct (Hq _ _ _ _ _ (Hc true) Hx) as (_ & _ & r & Hr & Hqi).
    exists r; split; [exact Hr | exact Hqi].
  - apply (Hn _ _ _ (Sample.groq_reply (Some (Sample.trade_doc false))) (Hc false)).
    + vm_compute; reflexivity.
    + exists (Sample.trade_doc false),
        [("ticker", JStr "TSLA"); ("entry_date", JStr "2024-05-01");
         ("entry_price", JNum (inject_Z 200))]%string.
      split; [reflexivity | split; vm_compute; reflexivity].
Defined.

(* ================================================================== *)
(** * The chat reply text *)

(** C5 (the code does not meet it). Groq's and Grok's chat return the
    completion's content as it is, with no fallback chain: an empty
    content gives the empty reply [""], and Groq's [None] content gives
    [message = None]. *)
Theorem chat_reply_can_be_empty :
  fst (run (Groq.generate_chat_response Sample.trade_lib
              (Sample.script [Ret (Sample.groq_reply (Some ""%string))])
              "Hi"%string [] [])) =
    Ret {| message := Some ""%string; is_grounded := false |} /\
  fst (run (Grok.generate_chat_response Sample.trade_lib
              (Sample.script [Ret {| Grok.x_content := ""%string; Grok.x_tool_calls := [] |}])
              "Hi"%string [] [])) =
    Ret {| message := Some ""%string; is_grounded := false |} /\
  fst (run (Groq.generate_chat_response Sample.trade_lib
              (Sample.script [Ret (Sample.groq_reply None)])
              "Hi"%string [] [])) =
    Ret {| message := None; is_grounded := false |}.
Proof. repeat split; vm_compute; reflexivity. Qed.

(* ================================================================== *)
(** * Grounding *)

Lemma groq_chat_grounded L o user_message chat_history trade_history s :
  exists r,
    fst (Groq.generate_chat_response L o user_message chat_history trade_history s)
      = Ret r /\
    is_grounded r = match o (calls s) with
                    | Ret resp => groq_tool_request resp && groq_answered (o (S (calls s)))
                    | Throw _ => false
                    end.
Proof.
  unfold Groq.generate_chat_response, try_except, bind, backend, lift,
    Groq.first_message, groq_tool_request, groq_answered, ret, raise.
  destruct (o (calls s)) as [r|e] eqn:Ho; cbn -[tool_turns]; [|eauto].
  destruct (Groq.choices r) as [|m ms]; cbn -[tool_turns]; [eauto|].
  destruct (Groq.tool_calls m) as [[|tc tcs]|]; cbn -[tool_turns]; try (eexists; split; reflexivity).
  lazymatch goal with |- context [tool_turns L (tc :: tcs) ?s1] =>
    destruct (tool_turns_calls L (tc :: tcs) s1) as (rs & s2 & E & C) end.
  rewrite E; cbn in C; rewrite C.
  destruct (o (S (calls s))) as [r2|e2]; cbn -[tool_turns]; [|eauto].
  destruct (Groq.choices r2); cbn -[tool_turns]; eauto.
Qed.

Lemma grok_chat_grounded L o user_message chat_history trade_history s :
  exists r,
    fst (Grok.generate_chat_response L o user_message chat_history trade_history s)
      = Ret r /\
    is_grounded r = match o (calls s) with
                    | Ret resp => grok_tool_request resp && succeeded (o (S (calls s)))
                    | Throw _ => false
                    end.
Proof.
  unfold Grok.generate_chat_response, try_except, bind, backend, lift,
    grok_tool_request, succeeded, ret, raise.
  destruct (o (calls s)) as [r|e] eqn:Ho; cbn -[tool_turns]; [|eauto].
  destruct (Grok.x_tool_calls r) as [|tc tcs]; cbn -[tool_turns]; [eauto|].
  lazymatch goal with |- context [tool_turns L (tc :: tcs) ?s1] =>
    destruct (tool_turns_calls L (tc :: tcs) s1) as (rs & s2 & E & C) end.
  rewrite E; cbn in C; rewrite C.
  destruct (o (S (calls s))); cbn -[tool_turns]; eauto.
Qed.

Lemma gemini_chat_grounded o user_message chat_history trade_history s :
  exists r n,
    fst (Gemini.generate_chat_response o user_message chat_history trade_history s)
      = Ret r /\
    calls (snd (Gemini.generate_chat_response o user_message chat_history trade_history s))
      = calls s + n /\
    1 <= n <= 3 /\
    is_grounded r = match o (calls s + (n - 1)) with
                    | Ret resp => Gemini.grounded resp && succeeded (Gemini.message_text resp)
                    | Throw _ => false
                    end.
Proof.
  destruct (gemini_chat_shape o user_message chat_history trade_history)
    as (cont & Hshape & Hok & Hc).
  rewrite Hshape.
  destruct (retry_loop_last o KChat
              (PMessages (lastn 6 chat_history ++
                          [{| role := "user"; content := user_message |}]))
              {| message := Some Gemini.fallback_msg; is_grounded := false |}
              cont Hok s) as (a & n & E1 & E2 & Hn & Hl).
  exists a, n; split; [exact E1|]; split; [exact E2|]; split; [exact Hn|].
  unfold last_result in Hl.
  destruct (o (calls s + (n - 1))) as [r|e]; [|subst; reflexivity].
  destruct Hl as (s' & [Hd | [(e & He) ->]]).
  - rewrite Hc in Hd; destruct (Gemini.message_text r); [|discriminate].
    inversion Hd; subst; cbn; now rewrite andb_true_r.
  - rewrite Hc in He; destruct (Gemini.message_text r); [discriminate|].
    cbn; now rewrite andb_false_r.
Qed.

(** C6 (as stated it fails). The first Groq completion asks for
    [fetch_stock_news] and the lookup is made, but the final completion
    call raises: the reply is Groq's "unavailable" message with
    [is_grounded = false]. *)
Lemma tool_call_then_failure_not_grounded :
  let args := ("{" ++ dq ++ "query" ++ dq ++ ": " ++ dq ++ "TSLA" ++ dq ++ "}")%string in
  let L := Sample.lib [(args, JObj [("query", JStr "TSLA")])]%string in
  let tc := {| tc_id := "call_1"; fn_name := "fetch_stock_news"; fn_arguments := args |}%string in
  let first := {| Groq.choices := [{| Groq.msg_content := None;
                                      Groq.tool_calls := Some [tc] |}] |} in
  let o := Sample.script [Ret first; Throw (SDKError "Error code: 503")]%string in
  run (Groq.generate_chat_response L o "Any news on TSLA?"%string [] []) =
    (Ret {| message := Some Groq.unavailable_msg; is_grounded := false |},
     {| calls := 2;
        log := [ECall KChat (PMessages [{| role := "user"; content := "Any news on TSLA?" |}]);
                ELookup (JStr "TSLA");
                ECall KChatFinal (PToolResults ["{}"])]%string |}).
Proof. vm_compute; reflexivity. Qed.

(** C6, amended. Chat never raises, and [is_grounded] is true exactly
    when the completion the reply is taken from reports grounding and the
    reply could be built from it. Gemini: the response of the last of the
    [n] attempts has a first candidate whose grounding metadata has a
    search entry point, and its message text could be read. Groq and Grok:
    the first completion asks for tools (a non-empty tool-call list) and
    the final completion call succeeds (for Groq, with a first choice); a
    tool call followed by a failing final call gives [false]. The outcome
    of the news lookups plays no part. *)
Theorem chat_grounding (L : Lib) :
  (forall o user_message chat_history trade_history s,
     exists r n,
       fst (Gemini.generate_chat_response o user_message chat_history trade_history s)
         = Ret r /\
       calls (snd (Gemini.generate_chat_response o user_message chat_history
                     trade_history s)) = calls s + n /\
       1 <= n <= 3 /\
       is_grounded r = match o (calls s + (n - 1)) with
                       | Ret resp => Gemini.grounded resp &&
                                     succeeded (Gemini.message_text resp)
                       | Throw _ => false
                       end) /\
  (forall o user_message chat_history trade_history s,
     exists r,
       fst (Groq.generate_chat_response L o user_message chat_history trade_history s)
         = Ret r /\
       is_grounded r = match o (calls s) with
                       | Ret resp => groq_tool_request resp &&
                                     groq_answered (o (S (calls s)))
                       | Throw _ => false
                       end) /\
  (forall o user_message chat_history trade_history s,
     exists r,
       fst (Grok.generate_chat_response L o user_message chat_history trade_history s)
         = Ret r /\
       is_grounded r = match o (calls s) with
                       | Ret resp => grok_tool_request resp && succeeded (o (S (calls s)))
                       | Throw _ => false
                       end).
Proof.
  split; [|split]; intros.
  - apply gemini_chat_grounded.
  - apply groq_chat_grounded.
  - apply grok_chat_grounded.
Qed.

(* ================================================================== *)
(** * [analyze_trades] on a non-empty list *)

(** C8 (as stated it fails). With 51 trades listed oldest first, the
    payload is [trades[:50]]: it leaves out trade 51, the most recent one. *)
Lemma analyze_drops_newest_trade :
  let trades := map numbered_trade (seq 1 51) in
  let o := Sample.script [Ret (Sample.groq_reply (Some "{}"%string))] in
  log (snd (run (Groq.analyze_trades (Sample.lib []) o trades))) =
    [ECall KAnalyze (PTrades (firstn 50 trades))] /\
  In (numbered_trade 51) trades /\
  ~ In (numbered_trade 51) (firstn 50 trades).
Proof.
  intros trades o; split; [reflexivity|]; split.
  - apply in_map, in_seq; lia.
  - subst trades; rewrite firstn_map.
    replace (firstn 50 (seq 1 51)) with (seq 1 50) by reflexivity.
    intros Hin; apply in_map_iff in Hin as (i & Hi & Hs).
    apply in_seq in Hs; unfold numbered_trade, inject_Z in Hi.
    injection Hi as Hi; lia.
Qed.

(** C8, amended. In every adapter, [analyze_trades] on a non-empty list
    makes exactly one call, whose payload is the first 50 trades in the
    order given ([trades[:50]]; the code does not sort them, so they are
    the most recent only when the caller lists them newest first). It
    never raises: when the call or the parse of the completion raises the
    result is [{"summary": "Analysis failed.", "insights": []}], and
    otherwise it is the parsed JSON, whatever its shape. *)
Theorem analyze_first_fifty (L : Lib) (trades : list TradeDict) (s : St) :
  trades <> [] ->
  (forall o : nat -> Result Gemini.Response,
     Gemini.analyze_trades L o trades s =
       (Ret (match o (calls s) with
             | Ret r => or_failed (Gemini.loads_text L r)
             | Throw _ => analysis_dict "Analysis failed."
             end),
        {| calls := S (calls s);
           log := log s ++ [ECall KAnalyze (PTrades (firstn 50 trades))] |})) /\
  (forall o : nat -> Result Groq.Response,
     Groq.analyze_trades L o trades s =
       (Ret (match o (calls s) with
             | Ret r => or_failed (match Groq.first_message r with
                                   | Ret m => Groq.loads_content L m
                                   | Throw e => Throw e
                                   end)
             | Throw _ => analysis_dict "Analysis failed."
             end),
        {| calls := S (calls s);
           log := log s ++ [ECall KAnalyze (PTrades (firstn 50 trades))] |})) /\
  (forall o : nat -> Result Grok.Response,
     Grok.analyze_trades L o trades s =
       (Ret (match o (calls s) with
             | Ret r => or_failed (match Grok.clean (Grok.x_content r) with
                                   | Ret c => json_loads L c
                                   | Throw e => Throw e
                                   end)
             | Throw _ => analysis_dict "Analysis failed."
             end),
        {| calls := S (calls s);
           log := log s ++ [ECall KAnalyze (PTrades (firstn 50 trades))] |})).
Proof.
  intros Hne; destruct trades as [|t ts]; [contradiction|].
  split; [|split]; intros o;
    unfold Gemini.analyze_trades, Groq.analyze_trades, Grok.analyze_trades,
      try_except, bind, backend, lift, ret, raise;
    destruct (o (calls s)) as [r|e]; try reflexivity.
  - destruct (Gemini.loads_text L r); reflexivity.
  - destruct (Groq.first_message r) as [m|]; [destruct (Groq.loads_content L m)|];
      reflexivity.
  - destruct (Grok.clean (Grok.x_content r)) as [c|]; [destruct (json_loads L c)|];
      reflexivity.
Qed.

Lemma analyze_first_fifty_witness :
  map numbered_trade (seq 1 51) <> [] /\
  Groq.analyze_trades (Sample.lib []) (Sample.script []) (map numbered_trade (seq 1 51)) st0 =
    (Ret (analysis_dict "Analysis failed."),
     {| calls := 1;
        log := [ECall KAnalyze (PTrades (firstn 50 (map numbered_trade (seq 1 51))))] |}).
Proof.
  assert (H : map numbered_trade (seq 1 51) <> []) by discriminate.
  split; [exact H|].
  exact (proj1 (proj2 (analyze_first_fifty (Sample.lib []) _ st0 H))
           (Sample.script [])).
Defined.

(* ================================================================== *)
(** * Chat titles *)

(** C9 (the code does not meet it). Groq's [generate_title_for_chat]
    returns [data.get("title", "New Chat")] unchecked: for the completion
    [{"title": 2024}] it returns the number [2024], and
    [generate_title_endpoint] then fails to build [TitleResponse] and
    answers with an HTTP 500 error instead of a title. *)
Theorem title_number_gives_error :
  let doc := ("{" ++ dq ++ "title" ++ dq ++ ": 2024}")%string in
  let L := Sample.lib [(doc, JObj [("title", JNum (inject_Z 2024))])]%string in
  let o := Sample.script [Ret (Sample.groq_reply (Some doc))] in
  let msgs := [{| role := "user"; content := "I bought TSLA today" |}]%string in
  fst (run (Groq.generate_title_for_chat L o msgs)) = Ret (JNum (inject_Z 2024)) /\
  fst (run (generate_title_endpoint (Groq.generate_title_for_chat L o msgs))) =
    Ret (HttpError 500 ("AI Microservice Error: " ++ exn_str ValidationError)%string).
Proof. split; vm_compute; reflexivity. Qed.

(* ================================================================== *)
(** * Gemini's reply text *)

Lemma message_text_nonempty r m :
  Gemini.message_text r = Ret m -> m <> ""%string.
Proof.
  unfold Gemini.message_text; cbv zeta; intros H.
  lazymatch type of H with
  | match ?c with Ret _ => _ | Throw _ => _ end = _ => destruct c as [m'|e]
  end; [|discriminate].
  injection H as <-.
  destruct m' as [|ch m']; cbn; discriminate.
Qed.

Lemma gemini_chat_message o user_message chat_history trade_history s :
  exists r m,
    fst (Gemini.generate_chat_response o user_message chat_history trade_history s)
      = Ret r /\
    message r = Some m /\ m <> ""%string.
Proof.
  destruct (gemini_chat_shape o user_message chat_history trade_history)
    as (cont & Hshape & Hok & Hc).
  rewrite Hshape.
  destruct (retry_loop_last o KChat
              (PMessages (lastn 6 chat_history ++
                          [{| role := "user"; content := user_message |}]))
              {| message := Some Gemini.fallback_msg; is_grounded := false |}
              cont Hok s) as (a & n & E1 & _ & _ & Hl).
  exists a; rewrite E1.
  assert (Hfb : a = {| message := Some Gemini.fallback_msg; is_grounded := false |} ->
                exists m, Ret a = Ret a /\ message a = Some m /\ m <> ""%string)
    by (intros ->; eexists; split; [reflexivity|]; split; [reflexivity|discriminate]).
  unfold last_result in Hl.
  destruct (o (calls s + (n - 1))) as [r|e]; [|now apply Hfb].
  destruct Hl as (s' & [Hd | [_ Ha]]); [|now apply Hfb].
  rewrite Hc in Hd; destruct (Gemini.message_text r) as [m|] eqn:Em; [|discriminate].
  inversion Hd; subst; cbn.
  exists m; split; [reflexivity|]; split; [reflexivity|].
  exact (message_text_nonempty r m Em).
Qed.

(** X1. Gemini's [generate_chat_response] never raises and its reply is
    never [None] nor the empty string. After [n] attempts ([1 <= n <= 3])
    the reply is [message_text] of the last attempt's completion (the
    direct text if non-empty, else the joined parts of the first
    candidate when it has parts, else the safety-block text, and the
    generic message in place of an empty result), or the fixed overload
    message when that attempt's call or [message_text] raised. *)
Theorem gemini_chat_reply_nonempty o user_message chat_history trade_history s :
  exists r m n,
    fst (Gemini.generate_chat_response o user_message chat_history trade_history s)
      = Ret r /\
    message r = Some m /\ m <> ""%string /\ 1 <= n <= 3 /\
    calls (snd (Gemini.generate_chat_response o user_message chat_history trade_history s))
      = calls s + n /\
    m = match o (calls s + (n - 1)) with
        | Ret resp =>
            match Gemini.message_text resp with
            | Ret t => t
            | Throw _ => Gemini.fallback_msg
            end
        | Throw _ => Gemini.fallback_msg
        end.
Proof.
  destruct (gemini_chat_outcome o user_message chat_history trade_history s)
    as (n & E & Hn & Hc & _).
  rewrite E; unfold or_fallback, gemini_chat_value, bindr.
  assert (Hfb : Gemini.fallback_msg <> ""%string)
    by (unfold Gemini.fallback_msg; discriminate).
  destruct (o (calls s + (n - 1))) as [resp|e] eqn:Ho.
  - destruct (Gemini.message_text resp) as [t|e] eqn:Et.
    + do 3 eexists; split; [reflexivity|]; split; [reflexivity|].
      split; [exact (message_text_nonempty resp t Et)|]; split; [exact Hn|].
      split; [exact Hc | rewrite Ho, Et; reflexivity].
    + do 3 eexists; split; [reflexivity|]; split; [reflexivity|].
      split; [exact Hfb|]; split; [exact Hn|].
      split; [exact Hc | rewrite Ho, Et; reflexivity].
  - do 3 eexists; split; [reflexivity|]; split; [reflexivity|].
    split; [exact Hfb|]; split; [exact Hn|]; split; [exact Hc | rewrite Ho; reflexivity].
Qed.

(* ================================================================== *)
(** * Start-up and provider selection *)

(** X2. How the process ends up, by the lower-cased [AI_PROVIDER]
    (default ["gemini"]) and [PORT]: ["grok"] always fails at import with
    an [ImportError] on [GrokService]; otherwise a [PORT] that [Settings()]
    rejects fails at import with a [ValidationError]; otherwise the
    process serves only for ["gemini"] or ["groq"] with that provider's
    key set to a non-empty value, [/health] then naming [AIService] or
    [GroqService], and every other case exits with status 1. *)
Theorem startup_outcome (int_ok : string -> bool) (e : Startup.Env) :
  match Startup.boot int_ok e with
  | Startup.Serving n =>
      Startup.settings int_ok e = Ret tt /\
      ((provider e = "gemini"%string /\ n = "AIService"%string /\
        key_set e "GEMINI_API_KEY") \/
       (provider e = "groq"%string /\ n = "GroqService"%string /\
        key_set e "GROQ_API_KEY"))
  | Startup.ImportFailed ex =>
      (provider e = "grok"%string /\ ex = ImportError "GrokService") \/
      (provider e <> "grok"%string /\ ex = ValidationError /\
       Startup.settings int_ok e = Throw ValidationError)
  | Startup.Exited c =>
      Startup.settings int_ok e = Ret tt /\ c = 1 /\
      ((provider e = "gemini"%string /\ ~ key_set e "GEMINI_API_KEY") \/
       (provider e = "groq"%string /\ ~ key_set e "GROQ_API_KEY") \/
       ~ In (provider e) ["gemini"; "groq"; "grok"]%string)
  end.
Proof.
  unfold Startup.boot, Startup.select; cbv zeta; fold (provider e).
  destruct (String.eqb_spec (provider e) "grok") as [Hk|Hk]; [left; now split|].
  assert (Hsel : exists c, (if String.eqb (provider e) "gemini" then Ret Startup.GeminiService
                  else if String.eqb (provider e) "groq" then Ret Startup.GroqService
                  else Ret (Startup.PlaceholderService (provider e))) = Ret c)
    by (destruct (String.eqb _ "gemini"); [|destruct (String.eqb _ "groq")]; eauto).
  destruct (settings_cases int_ok e) as [Hset | Hset]; rewrite Hset.
  2: { destruct Hsel as (c & ->); right; auto. }
  destruct (String.eqb_spec (provider e) "gemini") as [Hg|Hg];
    [|destruct (String.eqb_spec (provider e) "groq") as [Hq|Hq]];
    cbn [Startup.construct]; unfold Startup.need_key, key_set.
  - destruct (Startup.env_get e "GEMINI_API_KEY") as [v|] eqn:E;
      [destruct (PyStr.truthy v) eqn:T|]; cbn.
    + split; [reflexivity|]; left; eauto.
    + split; [reflexivity|]; split; [reflexivity|]; left; split; [exact Hg|].
      intros (v' & E' & T'); congruence.
    + split; [reflexivity|]; split; [reflexivity|]; left; split; [exact Hg|].
      intros (v' & E' & T'); congruence.
  - destruct (Startup.env_get e "GROQ_API_KEY") as [v|] eqn:E;
      [destruct (PyStr.truthy v) eqn:T|]; cbn.
    + split; [reflexivity|]; right; eauto.
    + split; [reflexivity|]; split; [reflexivity|]; right; left; split; [exact Hq|].
      intros (v' & E' & T'); congruence.
    + split; [reflexivity|]; split; [reflexivity|]; right; left; split; [exact Hq|].
      intros (v' & E' & T'); congruence.
  - split; [reflexivity|]; split; [reflexivity|]; right; right.
    cbn; intuition.
Qed.

(* ================================================================== *)
(** * Gemini's classification *)

(** X3. Gemini's [classify_intent] makes one call when its first attempt
    succeeds, and otherwise sleeps 1 s and makes a second and last call;
    the intent is that of the first successful attempt, or ["OTHER"]
    when both fail. *)
Theorem gemini_classify_attempts L o input s :
  Gemini.classify_intent L o input s =
  match gemini_attempt L (o (calls s)) with
  | Ret i => (Ret i, {| calls := S (calls s);
                        log := log s ++ [ECall KClassify (PText input)] |})
  | Throw _ =>
      (Ret (match gemini_attempt L (o (S (calls s))) with
            | Ret i => i
            | Throw _ => "OTHER"%string
            end),
       {| calls := S (S (calls s));
          log := log s ++ [ECall KClassify (PText input); ESleep 1;
                           ECall KClassify (PText input)] |})
  end.
Proof. exact (gemini_classify_closed L o input s). Qed.

(* ================================================================== *)
(** * Titles *)

Lemma gemini_title_outcome L o msgs s :
  once_outcome o (ECall KTitle (PMessages (lastn 5 msgs))) (JStr "New Chat"%string)
    (gemini_title_value L) (Gemini.generate_title_for_chat L o msgs s) s.
Proof.
  unfold once_outcome, Gemini.generate_title_for_chat, gemini_title_value,
    or_fallback, try_except, bind, backend, lift, bindr, ret, raise.
  destruct (o (calls s)) as [r|e]; cbn; [|reflexivity].
  destruct (Gemini.loads_text L r) as [d|]; cbn; [|reflexivity].
  destruct (py_get d "title" JNull); reflexivity.
Qed.

Lemma groq_title_outcome L o msgs s :
  once_outcome o (ECall KTitle (PMessages (lastn 5 msgs))) (JStr "New Chat"%string)
    (groq_title_value L) (Groq.generate_title_for_chat L o msgs s) s.
Proof.
  unfold once_outcome, Groq.generate_title_for_chat, groq_title_value,
    or_fallback, try_except, bind, backend, lift, bindr, ret, raise.
  destruct (o (calls s)) as [r|e]; cbn; [|reflexivity].
  destruct (Groq.first_message r) as [m|]; cbn; [|reflexivity].
  destruct (Groq.loads_content L m) as [d|]; cbn; [|reflexivity].
  destruct (py_get d "title" (JStr "New Chat"%string)); reflexivity.
Qed.

Lemma grok_title_outcome L o msgs s :
  once_outcome o (ECall KTitle (PMessages (lastn 5 msgs))) (JStr "New Chat"%string)
    (grok_title_value L) (Grok.generate_title_for_chat L o msgs s) s.
Proof.
  unfold once_outcome, Grok.generate_title_for_chat, grok_title_value,
    or_fallback, try_except, bind, backend, lift, bindr, ret, raise.
  destruct (o (calls s)) as [r|e]; cbn; [|reflexivity].
  destruct (Grok.clean (Grok.x_content r)) as [c|]; cbn; [|reflexivity].
  destruct (json_loads L c) as [d|]; cbn; [|reflexivity].
  destruct (py_get d "title" JNull); reflexivity.
Qed.

(** X4. Every adapter's [generate_title_for_chat] makes exactly one
    model call, whose payload is the last 5 messages, and nothing else
    (no sleep, no retry); it never raises, and returns the title the code
    reads from that call's completion ([data.get("title")] for Gemini and
    Grok, [data.get("title", "New Chat")] for Groq), or ["New Chat"] when
    the call or that reading raised. *)
Theorem title_single_attempt L o1 o2 o3 msgs s :
  once_outcome o1 (ECall KTitle (PMessages (lastn 5 msgs))) (JStr "New Chat"%string)
    (gemini_title_value L) (Gemini.generate_title_for_chat L o1 msgs s) s /\
  once_outcome o2 (ECall KTitle (PMessages (lastn 5 msgs))) (JStr "New Chat"%string)
    (groq_title_value L) (Groq.generate_title_for_chat L o2 msgs s) s /\
  once_outcome o3 (ECall KTitle (PMessages (lastn 5 msgs))) (JStr "New Chat"%string)
    (grok_title_value L) (Grok.generate_title_for_chat L o3 msgs s) s.
Proof.
  split; [apply gemini_title_outcome | split; [apply groq_title_outcome | apply grok_title_outcome]].
Qed.

Lemma title_endpoint_value (call : M JValue) s v s' :
  call s = (Ret v, s') ->
  exists h, fst (generate_title_endpoint call s) = Ret h /\ title_outcome v h.
Proof.
  intros Hc; unfold generate_title_endpoint, try_except, bind; rewrite Hc.
  destruct (jtruthy v) eqn:T; cbn.
  - destruct v as [| | |t| |]; cbn; eexists; (split; [reflexivity|]); cbn;
      try (split; [reflexivity|]; split; [reflexivity|];
           split; [exact T | intros t' ?; discriminate]).
    split; [intros ->; discriminate T | left; split; [exact T | reflexivity]].
  - eexists; split; [reflexivity|]; cbn.
    split; [discriminate | right; split; [exact T | reflexivity]].
Qed.

Lemma title_total_gemini L o msgs : total (Gemini.generate_title_for_chat L o msgs).
Proof. unfold Gemini.generate_title_for_chat; monad_auto. Qed.

Lemma title_total_groq L o msgs : total (Groq.generate_title_for_chat L o msgs).
Proof. unfold Groq.generate_title_for_chat; monad_auto. Qed.

Lemma title_total_grok L o msgs : total (Grok.generate_title_for_chat L o msgs).
Proof. unfold Grok.generate_title_for_chat; monad_auto. Qed.

Lemma title_endpoint_total (call : M JValue) s :
  total call ->
  exists v h, fst (call s) = Ret v /\
    fst (generate_title_endpoint call s) = Ret h /\ title_outcome v h.
Proof.
  intros Ht; destruct (Ht s) as (v & s' & E).
  destruct (title_endpoint_value call s v s' E) as (h & E1 & H1).
  exists v, h; rewrite E; auto.
Qed.

(** X5. With every adapter, [/ai/generate-title] never answers an empty
    title: it answers 200 with ["New Chat"] or with the adapter's string
    title, or 500 exactly when the adapter returned a truthy value that
    is not a string. *)
Theorem title_endpoint_outcome L o1 o2 o3 msgs s :
  (exists v h, fst (Gemini.generate_title_for_chat L o1 msgs s) = Ret v /\
     fst (generate_title_endpoint (Gemini.generate_title_for_chat L o1 msgs) s) = Ret h /\
     title_outcome v h) /\
  (exists v h, fst (Groq.generate_title_for_chat L o2 msgs s) = Ret v /\
     fst (generate_title_endpoint (Groq.generate_title_for_chat L o2 msgs) s) = Ret h /\
     title_outcome v h) /\
  (exists v h, fst (Grok.generate_title_for_chat L o3 msgs s) = Ret v /\
     fst (generate_title_endpoint (Grok.generate_title_for_chat L o3 msgs) s) = Ret h /\
     title_outcome v h).
Proof.
  repeat split; apply title_endpoint_total;
    auto using title_total_gemini, title_total_groq, title_total_grok.
Qed.

(* ================================================================== *)
(** * Trade analysis endpoint *)

Lemma analyze_endpoint_value (call : M JValue) s v s' :
  call s = (Ret v, s') ->
  fst (analyze_trades_endpoint call s) =
    Ret (match insights_of v with
         | Ret r => HttpOk r
         | Throw e => HttpError 500 ("AI Microservice Error: " ++ exn_str e)%string
         end).
Proof.
  intros Hc; unfold analyze_trades_endpoint, try_except, bind; rewrite Hc.
  unfold insights_of, bindr, lift, ret, raise, error_500.
  destruct (py_get v _ _) as [sm|e]; cbn; [|reflexivity].
  destruct (py_get v _ _) as [ins|e]; cbn; [|reflexivity].
  destruct (insights_response sm ins); reflexivity.
Qed.

(** X6. With every adapter, [/ai/analyze-trades] answers 200 for an empty
    list and whenever the model call or the parse of its completion fails
    (the adapter's own summary dicts are accepted); it answers 500 only
    when the completion of the single call parses to a JSON value that
    [InsightsResponse] rejects: not an object, or a non-string
    ["summary"], or an ["insights"] that is not a list of strings
    (missing keys take the defaults ["Analysis unavailable"] and [[]]). *)
Theorem analyze_endpoint_outcome L o1 o2 o3 trades s :
  analyze_outcome L o1 gemini_reply_text trades s
    (fst (analyze_trades_endpoint (Gemini.analyze_trades L o1 trades) s)) /\
  analyze_outcome L o2 groq_reply_text trades s
    (fst (analyze_trades_endpoint (Groq.analyze_trades L o2 trades) s)) /\
  analyze_outcome L o3 grok_reply_text trades s
    (fst (analyze_trades_endpoint (Grok.analyze_trades L o3 trades) s)).
Proof.
  destruct trades as [|t ts].
  { repeat split; left; eexists; vm_compute; reflexivity. }
  assert (Hok : forall {R} o rt (call : M JValue),
            (forall v s', call s = (Ret v, s') ->
               v = analysis_dict "Analysis failed."%string \/
               exists resp c, o (calls s) = Ret resp /\ rt resp = Some c /\ loads L c = Some v) ->
            total call ->
            @analyze_outcome R L o rt (t :: ts) s (fst (analyze_trades_endpoint call s))).
  { intros R o rt call Hv Ht.
    destruct (Ht s) as (v & s' & E).
    rewrite (analyze_endpoint_value _ _ _ _ E).
    destruct (Hv v s' E) as [-> | (resp & c & Ho & Hr & Hl)].
    - left; eexists; reflexivity.
    - destruct (insights_of v) as [r|e] eqn:Ei; [left; eexists; reflexivity|].
      right; exists resp, c, v, e; repeat split; auto; discriminate. }
  repeat split; apply Hok.
  - intros v s' E; unfold Gemini.analyze_trades, try_except, bind, backend, lift,
      ret, raise in E.
    destruct (o1 (calls s)) as [r|e] eqn:Ho; cbn in E; [|inversion E; auto].
    unfold Gemini.loads_text, json_loads in E.
    destruct (Gemini.text r) as [c|] eqn:Ht; cbn in E; [|inversion E; auto].
    destruct (loads L c) as [v'|] eqn:Hl; cbn in E; inversion E; subst; auto.
    right; exists r, c; auto.
  - unfold Gemini.analyze_trades; monad_auto.
  - intros v s' E; unfold Groq.analyze_trades, try_except, bind, backend, lift,
      ret, raise in E.
    destruct (o2 (calls s)) as [r|e] eqn:Ho; cbn in E; [|inversion E; auto].
    unfold Groq.first_message, Groq.loads_content, json_loads in E.
    destruct (Groq.choices r) as [|m ms] eqn:Hc; cbn in E; [inversion E; auto|].
    destruct (Groq.msg_content m) as [c|] eqn:Ht; cbn in E; [|inversion E; auto].
    destruct (loads L c) as [v'|] eqn:Hl; cbn in E; inversion E; subst; auto.
    right; exists r, c; unfold groq_reply_text; rewrite Hc; auto.
  - unfold Groq.analyze_trades; monad_auto.
  - intros v s' E; unfold Grok.analyze_trades, try_except, bind, backend, lift,
      ret, raise in E.
    destruct (o3 (calls s)) as [r|e] eqn:Ho; cbn in E; [|inversion E; auto].
    unfold json_loads in E.
    destruct (Grok.clean (Grok.x_content r)) as [c|] eqn:Ht; cbn in E; [|inversion E; auto].
    destruct (loads L c) as [v'|] eqn:Hl; cbn in E; inversion E; subst; auto.
    right; exists r, c; unfold grok_reply_text; rewrite Ht; auto.
  - unfold Grok.analyze_trades; monad_auto.
Qed.

(* ================================================================== *)
(** * Chat and extraction endpoints *)

Lemma process_chat_value chat extract s r s1 t s2 :
  chat s = (Ret r, s1) -> extract s1 = (Ret t, s2) ->
  process_chat chat extract s =
    (match message r with
     | Some m => Ret (HttpOk {| resp_message := m; trade_extracted := t;
                                resp_is_grounded := is_grounded r |})
     | None => Ret (HttpError 500 ("AI Microservice Error: " ++ exn_str ValidationError)%string)
     end, s2).
Proof.
  intros Hc He; unfold process_chat, try_except, bind; rewrite Hc, He.
  destruct (message r); reflexivity.
Qed.

Lemma grok_chat_message L o user_message chat_history trade_history s :
  exists r m,
    fst (Grok.generate_chat_response L o user_message chat_history trade_history s)
      = Ret r /\ message r = Some m.
Proof.
  unfold Grok.generate_chat_response, try_except, bind, backend, lift, ret, raise.
  destruct (o (calls s)) as [r|e]; cbn -[tool_turns];
    [|do 2 eexists; split; reflexivity].
  destruct (Grok.x_tool_calls r) as [|tc tcs]; cbn -[tool_turns];
    [do 2 eexists; split; reflexivity|].
  lazymatch goal with |- context [tool_turns L ?tcs ?s1] =>
    destruct (tool_turns_calls L tcs s1) as (rs & s2 & E & C) end.
  rewrite E; destruct (o (calls s2)); cbn -[tool_turns];
    do 2 eexists; split; reflexivity.
Qed.

(** X7. [/ai/process-chat] never fails with Gemini or Grok: it answers
    200 with the adapter's reply (never empty with Gemini). With Groq it
    answers 500 exactly when the chat reply is [None] (a completion
    without content), and 200 with the reply otherwise. *)
Theorem process_chat_outcome L o1 o2 o3 um ch th s :
  (exists r m resp, fst (Gemini.generate_chat_response o1 um ch th s) = Ret r /\
     message r = Some m /\ m <> ""%string /\
     fst (process_chat (Gemini.generate_chat_response o1 um ch th)
                       (Gemini.extract_trade_from_text L o1 um) s) = Ret (HttpOk resp) /\
     resp_message resp = m) /\
  (exists r, fst (Groq.generate_chat_response L o2 um ch th s) = Ret r /\
     (message r = None ->
      fst (process_chat (Groq.generate_chat_response L o2 um ch th)
                        (Groq.extract_trade_from_text L o2 um) s) =
        Ret (HttpError 500 ("AI Microservice Error: " ++ exn_str ValidationError)%string)) /\
     (forall m, message r = Some m -> exists resp,
      fst (process_chat (Groq.generate_chat_response L o2 um ch th)
                        (Groq.extract_trade_from_text L o2 um) s) = Ret (HttpOk resp) /\
      resp_message resp = m)) /\
  (exists r m resp, fst (Grok.generate_chat_response L o3 um ch th s) = Ret r /\
     message r = Some m /\
     fst (process_chat (Grok.generate_chat_response L o3 um ch th)
                       (Grok.extract_trade_from_text L o3 um) s) = Ret (HttpOk resp) /\
     resp_message resp = m).
Proof.
  split; [|split].
  - destruct (gemini_chat_message o1 um ch th s) as (r & m & Er & Em & Hm).
    destruct (Gemini.generate_chat_response o1 um ch th s) as [r' s1] eqn:Hc.
    cbn in Er; subst r'.
    destruct (gemini_extract_total L o1 um s1) as (t & s2 & He).
    rewrite (process_chat_value _ _ _ _ _ _ _ Hc He), Em.
    do 3 eexists; split; [reflexivity|]; split; [exact Em|]; split; [exact Hm|].
    split; reflexivity.
  - destruct (groq_chat_grounded L o2 um ch th s) as (r & Er & _).
    destruct (Groq.generate_chat_response L o2 um ch th s) as [r' s1] eqn:Hc.
    cbn in Er; subst r'.
    destruct (groq_extract_total L o2 um s1) as (t & s2 & He).
    rewrite (process_chat_value _ _ _ _ _ _ _ Hc He).
    exists r; split; [reflexivity|]; split.
    + intros ->; reflexivity.
    + intros m ->; eexists; split; reflexivity.
  - destruct (grok_chat_message L o3 um ch th s) as (r & m & Er & Em).
    destruct (Grok.generate_chat_response L o3 um ch th s) as [r' s1] eqn:Hc.
    cbn in Er; subst r'.
    destruct (grok_extract_total L o3 um s1) as (t & s2 & He).
    rewrite (process_chat_value _ _ _ _ _ _ _ Hc He), Em.
    do 3 eexists; split; [reflexivity|]; split; [exact Em|]; split; reflexivity.
Qed.

Lemma extract_endpoint_value (call : M (option TradeCreate)) s :
  total call ->
  exists t, fst (call s) = Ret t /\ fst (extract_trade_endpoint call s) = Ret (HttpOk t).
Proof.
  intros Ht; destruct (Ht s) as (t & s' & E).
  exists t; unfold extract_trade_endpoint, try_except, bind; rewrite E; split; reflexivity.
Qed.

(** X9. With every adapter, [/ai/extract-trade] never answers 500: it
    answers 200 with the adapter's result, a trade or [null]. *)
Theorem extract_endpoint_never_fails L o1 o2 o3 input s :
  (exists t, fst (Gemini.extract_trade_from_text L o1 input s) = Ret t /\
     fst (extract_trade_endpoint (Gemini.extract_trade_from_text L o1 input) s)
       = Ret (HttpOk t)) /\
  (exists t, fst (Groq.extract_trade_from_text L o2 input s) = Ret t /\
     fst (extract_trade_endpoint (Groq.extract_trade_from_text L o2 input) s)
       = Ret (HttpOk t)) /\
  (exists t, fst (Grok.extract_trade_from_text L o3 input s) = Ret t /\
     fst (extract_trade_endpoint (Grok.extract_trade_from_text L o3 input) s)
       = Ret (HttpOk t)).
Proof.
  split; [|split]; apply extract_endpoint_value;
    auto using gemini_extract_total, groq_extract_total, grok_extract_total.
Qed.

(* ================================================================== *)
(** * Tool calls and the news tool *)

(** X10. The tool loop of the Groq and Grok chats never raises and makes
    no model call; it yields exactly one tool result per tool call named
    [fetch_stock_news] (none for other names), and logs at most one news
    lookup per result and nothing else. *)
Theorem tool_turns_one_result_per_fetch L tcs s :
  exists rs s' sfx,
    tool_turns L tcs s = (Ret rs, s') /\
    length rs = length (filter is_fetch tcs) /\
    calls s' = calls s /\
    log s' = log s ++ sfx /\ Forall is_lookup sfx /\ length sfx <= length rs.
Proof.
  revert s; induction tcs as [|tc tcs IH]; intros s; cbn [tool_turns filter].
  - exists [], s, []; repeat split; auto; symmetry; apply app_nil_r.
  - unfold bind at 1.
    change (String.eqb (fn_name tc) "fetch_stock_news") with (is_fetch tc).
    destruct (is_fetch tc) eqn:Hf; cbv beta iota.
    + assert (Hhead : exists x s1 sfx1,
        try_except
          (args <- lift (json_loads L (fn_arguments tc)) ;;
           q <- lift (subscript_query args) ;;
           emit (ELookup q) ;;;
           news <- lift (fetch_stock_news L q) ;;
           ret [news])
          (fun tool_err => ret [tool_error_json tool_err]) s = (Ret [x], s1) /\
        calls s1 = calls s /\ log s1 = log s ++ sfx1 /\
        Forall is_lookup sfx1 /\ length sfx1 <= 1).
      { unfold try_except, bind, lift, emit, ret, raise.
        destruct (json_loads L (fn_arguments tc)) as [args|]; cbn;
          [|do 3 eexists; repeat split; [symmetry; apply app_nil_r | constructor | cbn; lia]].
        destruct (subscript_query args) as [q|]; cbn;
          [|do 3 eexists; repeat split; [symmetry; apply app_nil_r | constructor | cbn; lia]].
        destruct (fetch_stock_news L q); cbn;
          do 3 eexists; repeat split;
          solve [reflexivity | repeat constructor | cbn; lia]. }
      destruct Hhead as (x & s1 & sfx1 & E1 & C1 & L1 & F1 & N1); rewrite E1.
      destruct (IH s1) as (rs & s2 & sfx2 & E2 & N2 & C2 & L2 & F2 & M2).
      unfold bind; rewrite E2.
      exists (x :: rs), s2, (sfx1 ++ sfx2); repeat split.
      * cbn; now rewrite N2.
      * congruence.
      * rewrite L2, L1; symmetry; apply app_assoc.
      * apply Forall_app; split; assumption.
      * rewrite length_app; cbn; lia.
    + destruct (IH s) as (rs & s2 & sfx2 & E2 & N2 & C2 & L2 & F2 & M2).
      cbn [ret]; unfold bind; rewrite E2.
      exists rs, s2, sfx2; repeat split; assumption.
Qed.

Lemma format_article_spec x a : News.format_article x = Ret a -> formatted_from x a.
Proof.
  unfold News.format_article, bindr, formatted_from.
  destruct (py_get x "title" JNull) as [t|] eqn:E0; [|discriminate].
  destruct (py_get x "source" (JObj [])) as [src|] eqn:E1; [|discriminate].
  destruct (py_get src "name" JNull) as [nm|] eqn:E2; [|discriminate].
  destruct (py_get x "description" JNull) as [d|] eqn:E3; [|discriminate].
  destruct (py_get x "publishedAt" JNull) as [p|] eqn:E4; [|discriminate].
  intros H; injection H as <-.
  exists t, src, nm, d, p; repeat split; assumption.
Qed.

Lemma format_articles_spec xs arts :
  News.format_articles xs = Ret arts -> Forall2 formatted_from xs arts.
Proof.
  revert arts; induction xs as [|x xs IH]; intros arts; cbn.
  - intros H; injection H as <-; constructor.
  - unfold bindr.
    destruct (News.format_article x) as [a|] eqn:Ea; [|discriminate].
    destruct (News.format_articles xs) as [l|]; [|discriminate].
    intros H; injection H as <-.
    constructor; [now apply format_article_spec | now apply IH].
Qed.

(** X11. [fetch_stock_news] never raises: it returns an [{"error": ...}]
    object, or [{"articles": [...]}] only when the key is set, the
    request answered 2xx, and the body is an object with ["status"] equal
    to ["ok"] and a non-empty list ["articles"]; the result then has one
    article per item of that list (as many as the API returned, whatever
    [limit] is), each the dict of exactly [title], [source] (the nested
    [name]), [description] and [published_at]. *)
Theorem fetch_stock_news_result L key get query limit :
  (exists msg, News.fetch_stock_news L key get query limit = News.error_obj msg) \/
  (exists k resp kv xs arts,
     key = Some k /\ PyStr.truthy k = true /\
     get (News.params query k limit) = Ret resp /\ News.is_success resp = true /\
     loads L (News.body resp) = Some (JObj kv) /\
     obj_get kv "status" = Some (JStr "ok") /\
     obj_get kv "articles" = Some (JArr xs) /\ xs <> [] /\
     News.fetch_stock_news L key get query limit = JObj [("articles", JArr arts)] /\
     Forall2 formatted_from xs arts)%string.
Proof.
  unfold News.fetch_stock_news.
  destruct key as [k|]; [|left; eauto].
  destruct (PyStr.truthy k) eqn:Hk; [|left; eauto].
  destruct (get _) as [resp|e] eqn:Hg; [|left; eauto].
  destruct (News.is_success resp) eqn:Hs; [|left; eauto].
  destruct (News.format_response L query resp) as [v|e] eqn:Hr; [|left; eauto].
  unfold News.format_response, bindr, json_loads in Hr.
  destruct (loads L (News.body resp)) as [data|] eqn:Hl; [|discriminate].
  destruct data as [| | | | |kv]; cbn in Hr; try discriminate.
  destruct (obj_get kv "status") as [st|] eqn:Hst; cbn in Hr; [|discriminate].
  destruct st as [| | |ss| |]; cbn in Hr;
    try (left; injection Hr as <-; eauto; fail).
  destruct (String.eqb_spec ss "ok") as [->|Hne]; cbn in Hr;
    [|left; injection Hr as <-; eauto].
  destruct (obj_get kv "articles") as [arts|] eqn:Ha; cbn in Hr; [|discriminate].
  destruct (jtruthy arts) eqn:Ht; cbn in Hr; [|left; injection Hr as <-; eauto].
  destruct arts as [| | |s'|xs|kv']; cbn in Hr; try discriminate.
  - destruct s' as [|c s'']; [discriminate Ht|]; cbn in Hr; discriminate.
  - destruct (News.format_articles xs) as [l|] eqn:Hf; cbn in Hr; [|discriminate].
    injection Hr as <-.
    right; exists k, resp, kv, xs, l; repeat split; auto.
    + intros ->; discriminate Ht.
    + now apply format_articles_spec.
  - destruct kv' as [|[k0 v0] kv'']; [discriminate Ht|]; cbn in Hr; discriminate.
Qed.

(* ================================================================== *)
(** * The extraction filters of Grok and Groq *)

(** X12. Grok's extraction returns [None], without validating it, for
    every cleaned completion that contains ["null"] in any case: a
    complete trade with an optional field set to [null] is dropped. *)
Theorem grok_extract_drops_null L o input s s1 r c :
  Grok.classify_intent L o input s = (Ret "LOG_TRADE"%string, s1) ->
  o (calls s1) = Ret r -> grok_reply_text r = Some c ->
  PyStr.contains "null" (PyStr.lower c) = true ->
  fst (Grok.extract_trade_from_text L o input s) = Ret None.
Proof.
  intros Hc Ho Hr Hn; unfold Grok.extract_trade_from_text.
  unfold bind at 1; rewrite Hc; cbn -[try_except bind backend].
  unfold try_except, bind, backend, lift; rewrite Ho;
    cbn -[Grok.clean PyStr.contains PyStr.lower].
  unfold grok_reply_text in Hr.
  destruct (Grok.clean (Grok.x_content r)) as [c'|]; [|discriminate].
  injection Hr as ->; cbn -[PyStr.contains PyStr.lower model_validate_json].
  rewrite Hn; reflexivity.
Qed.

Lemma grok_extract_drops_null_witness :
  let L := Sample.nulls_lib "swing trade"%string in
  let o := Sample.script
             [Ret {| Grok.x_content := Sample.intent_doc "LOG_TRADE";
                     Grok.x_tool_calls := [] |};
              Ret {| Grok.x_content := Sample.nulls_doc "swing trade";
                     Grok.x_tool_calls := [] |}]%string in
  let s1 := {| calls := 1; log := [ECall KClassify (PText "Bought TSLA at 200")] |}%string in
  Grok.classify_intent L o "Bought TSLA at 200"%string st0 = (Ret "LOG_TRADE"%string, s1) /\
  o (calls s1) = Ret {| Grok.x_content := Sample.nulls_doc "swing trade";
                        Grok.x_tool_calls := [] |} /\
  grok_reply_text {| Grok.x_content := Sample.nulls_doc "swing trade";
                     Grok.x_tool_calls := [] |}
    = Some (Sample.nulls_doc "swing trade") /\
  PyStr.contains "null" (PyStr.lower (Sample.nulls_doc "swing trade")) = true /\
  succeeded (model_validate_json L (Sample.nulls_doc "swing trade")) = true /\
  fst (Grok.extract_trade_from_text L o "Bought TSLA at 200"%string st0) = Ret None.
Proof.
  intros L o s1.
  assert (H1 : Grok.classify_intent L o "Bought TSLA at 200"%string st0 =
               (Ret "LOG_TRADE"%string, s1)) by (vm_compute; reflexivity).
  assert (H2 : o (calls s1) =
               Ret {| Grok.x_content := Sample.nulls_doc "swing trade";
                      Grok.x_tool_calls := [] |}) by reflexivity.
  assert (H3 : grok_reply_text {| Grok.x_content := Sample.nulls_doc "swing trade";
                                  Grok.x_tool_calls := [] |}
               = Some (Sample.nulls_doc "swing trade")) by (vm_compute; reflexivity).
  assert (H4 : PyStr.contains "null" (PyStr.lower (Sample.nulls_doc "swing trade")) = true)
    by (vm_compute; reflexivity).
  split; [exact H1|]; split; [exact H2|]; split; [exact H3|]; split; [exact H4|].
  split; [vm_compute; reflexivity|].
  exact (grok_extract_drops_null L o _ st0 s1 _ _ H1 H2 H3 H4).
Defined.

(** X13. Groq's extraction returns [None], without validating it, for
    every completion whose content contains both ["null"] and ["error"]
    in any case: a complete trade with a [null] field and the word
    "error" in its notes is dropped. *)
Theorem groq_extract_drops_null_error L o input s s1 r c :
  Groq.classify_intent L o input s = (Ret "LOG_TRADE"%string, s1) ->
  o (calls s1) = Ret r -> groq_reply_text r = Some c ->
  PyStr.contains "null" (PyStr.lower c) = true ->
  PyStr.contains "error" (PyStr.lower c) = true ->
  fst (Groq.extract_trade_from_text L o input s) = Ret None.
Proof.
  intros Hc Ho Hr Hn He; unfold Groq.extract_trade_from_text.
  unfold bind at 1; rewrite Hc; cbn -[try_except bind backend].
  unfold try_except, bind, backend, lift; rewrite Ho; cbn -[PyStr.contains PyStr.lower].
  unfold groq_reply_text in Hr.
  unfold Groq.first_message.
  destruct (Groq.choices r) as [|m ms]; [discriminate|];
    cbn -[PyStr.contains PyStr.lower model_validate_json].
  rewrite Hr, Hn, He; reflexivity.
Qed.

Lemma groq_extract_drops_null_error_witness :
  let L := Sample.nulls_lib "sizing error"%string in
  let o := Sample.script
             [Ret (Sample.groq_reply (Some (Sample.intent_doc "LOG_TRADE")));
              Ret (Sample.groq_reply (Some (Sample.nulls_doc "sizing error")))]%string in
  let s1 := {| calls := 1; log := [ECall KClassify (PText "Bought TSLA at 200")] |}%string in
  Groq.classify_intent L o "Bought TSLA at 200"%string st0 = (Ret "LOG_TRADE"%string, s1) /\
  o (calls s1) = Ret (Sample.groq_reply (Some (Sample.nulls_doc "sizing error"))) /\
  groq_reply_text (Sample.groq_reply (Some (Sample.nulls_doc "sizing error")))
    = Some (Sample.nulls_doc "sizing error") /\
  PyStr.contains "null" (PyStr.lower (Sample.nulls_doc "sizing error")) = true /\
  PyStr.contains "error" (PyStr.lower (Sample.nulls_doc "sizing error")) = true /\
  succeeded (model_validate_json L (Sample.nulls_doc "sizing error")) = true /\
  fst (Groq.extract_trade_from_text L o "Bought TSLA at 200"%string st0) = Ret None.
Proof.
  intros L o s1.
  assert (H1 : Groq.classify_intent L o "Bought TSLA at 200"%string st0 =
               (Ret "LOG_TRADE"%string, s1)) by (vm_compute; reflexivity).
  assert (H2 : o (calls s1) = Ret (Sample.groq_reply (Some (Sample.nulls_doc "sizing error"))))
    by reflexivity.
  assert (H3 : groq_reply_text (Sample.groq_reply (Some (Sample.nulls_doc "sizing error")))
               = Some (Sample.nulls_doc "sizing error")) by reflexivity.
  assert (H4 : PyStr.contains "null" (PyStr.lower (Sample.nulls_doc "sizing error")) = true)
    by (vm_compute; reflexivity).
  assert (H5 : PyStr.contains "error" (PyStr.lower (Sample.nulls_doc "sizing error")) = true)
    by (vm_compute; reflexivity).
  split; [exact H1|]; split; [exact H2|]; split; [exact H3|]; split; [exact H4|].
  split; [exact H5|]; split; [vm_compute; reflexivity|].
  exact (groq_extract_drops_null_error L o _ st0 s1 _ _ H1 H2 H3 H4 H5).
Defined.

(* ------------------------------------------------------------------ *)
(** ** The markdown fence removal of [grok_service.py] *)

Lemma str_app_nil_r (s : string) : (s ++ "")%string = s.
Proof. induction s as [|c s IH]; cbn; [reflexivity | now rewrite IH]. Qed.

Lemma str_app_assoc (a b c : string) : ((a ++ b) ++ c)%string = (a ++ (b ++ c))%string.
Proof. induction a as [|x a IH]; cbn; [reflexivity | now rewrite IH]. Qed.

Lemma str_length_app (a b : string) :
  String.length (a ++ b) = String.length a + String.length b.
Proof. induction a as [|c a IH]; cbn; [reflexivity | now rewrite IH]. Qed.

Lemma substring_whole (s : string) : substring 0 (String.length s) s = s.
Proof. induction s as [|c s IH]; cbn; [reflexivity | now rewrite IH]. Qed.

Lemma prefix_app (p r : string) : String.prefix p (p ++ r) = true.
Proof.
  induction p as [|c p IH]; cbn -[ascii_dec]; [now destruct r|].
  destruct (ascii_dec c c) as [_|n]; [exact IH | exfalso; now apply n].
Qed.

Lemma substring_after (p r : string) :
  substring (String.length p) (String.length (p ++ r) - String.length p) (p ++ r) = r.
Proof.
  rewrite str_length_app, Nat.add_comm, Nat.add_sub.
  induction p as [|c p IH]; cbn; [apply substring_whole | exact IH].
Qed.

Lemma no_backtick_cons c b :
  PyStr.contains "`" (String c b) = false ->
  c <> "`"%char /\ PyStr.contains "`" b = false.
Proof.
  cbn -[ascii_dec]; destruct (ascii_dec "`" c) as [E|Hc];
    [destruct b; intros H; discriminate H|].
  intros H; split; [intros E; apply Hc; now rewrite E|].
  destruct b; [reflexivity|exact H].
Qed.

(** Splitting [sep ++ rest] on [sep] yields the text before it, then the
    split of [rest]. *)
Lemma split_fuel_sep fuel sep rest acc :
  sep <> ""%string ->
  PyStr.split_fuel (S fuel) sep (sep ++ rest) acc
  = acc :: PyStr.split_fuel fuel sep rest "".
Proof.
  intros Hs; destruct sep as [|c s]; [contradiction|].
  cbn [PyStr.split_fuel].
  change (String c (s ++ rest)) with (String c s ++ rest)%string.
  rewrite prefix_app, substring_after; reflexivity.
Qed.

(** A text without backticks followed by a closing fence. *)
Lemma split_tail fuel b acc :
  PyStr.contains "`" b = false -> String.length b < fuel ->
  PyStr.split_fuel fuel "```" (b ++ "```") acc = [(acc ++ b)%string; ""%string].
Proof.
  revert fuel acc; induction b as [|c b IH]; intros fuel acc Hb Hf.
  - destruct fuel as [|fuel]; [cbn in Hf; lia|].
    cbn; rewrite str_app_nil_r; destruct fuel; reflexivity.
  - destruct (no_backtick_cons c b Hb) as [Hc Hb'].
    destruct fuel as [|fuel]; [cbn in Hf; lia|].
    cbn [PyStr.split_fuel String.append].
    assert (Hp : String.prefix "```" (String c (b ++ "```")) = false).
    { cbn -[ascii_dec]; destruct (ascii_dec "`" c) as [E|];
        [subst; exfalso; now apply Hc|reflexivity]. }
    rewrite Hp, IH by (auto; cbn in Hf; lia).
    now rewrite str_app_assoc.
Qed.

Lemma split_fenced body :
  PyStr.contains "`" body = false ->
  PyStr.split ("```" ++ body ++ "```") "```" = [""; body; ""]%string.
Proof.
  intros Hb; unfold PyStr.split.
  rewrite split_fuel_sep by discriminate.
  rewrite split_tail; [reflexivity | exact Hb |].
  rewrite !str_length_app; cbn; lia.
Qed.

(** X14: when the stripped completion is a markdown fence around a text
    without backticks, [clean] returns that text with every occurrence of
    "json" removed (the language tag and any inside the payload), stripped. *)
Theorem grok_clean_fenced (raw body : string) :
  PyStr.strip raw = ("```" ++ body ++ "```")%string ->
  PyStr.contains "`" body = false ->
  Grok.clean raw = Ret (PyStr.strip (PyStr.replace body "json" "")).
Proof.
  intros Hr Hb; unfold Grok.clean; rewrite Hr, split_fenced by exact Hb.
  unfold PyStr.startswith; rewrite prefix_app; reflexivity.
Qed.

Lemma grok_clean_fenced_witness :
  let nl := String (ascii_of_nat 10) EmptyString in
  let body := ("json" ++ nl ++ "[" ++ dq ++ "json log" ++ dq ++ "]" ++ nl)%string in
  let raw := ("  ```" ++ body ++ "```" ++ nl)%string in
  PyStr.strip raw = ("```" ++ body ++ "```")%string /\
  PyStr.contains "`" body = false /\
  Grok.clean raw = Ret ("[" ++ dq ++ " log" ++ dq ++ "]")%string.
Proof.
  intros nl body raw.
  assert (H1 : PyStr.strip raw = ("```" ++ body ++ "```")%string)
    by (vm_compute; reflexivity).
  assert (H2 : PyStr.contains "`" body = false) by (vm_compute; reflexivity).
  split; [exact H1|]; split; [exact H2|].
  rewrite (grok_clean_fenced raw body H1 H2); vm_compute; reflexivity.
Defined.
